(** * Handlebars preview: render pipeline and session registry

    A shallow embedding of [src/extension.ts] and
    [src/preview-panel-scope.ts].

    Conventions of the embedding.
    - A JavaScript string is a [string]: a sequence of code units, here the
      code units below 256.
    - A function that can throw returns a [Result]; an [async] function that
      can reject is the same, a rejected promise being [Throw].  Every
      handler runs to completion before the next event is dispatched.
    - The mutable module state ([panels], [partialsRegisteredByWorkspace],
      the Handlebars partial registry, the session objects the array refers
      to) is one [World], threaded through the small state and error monad
      [M].
    - The host editor, the file system and the libraries the code calls
      (Handlebars, cheerio, [path], [JSON]) are parameters: [Host] is the
      part that changes between events, [Libs] the part that does not.
    - The two files do not fit each other: [preview-panel-scope.ts] imports
      a subject [showErrorMessage] that [extension.ts] does not export, and
      takes a callback that [extension.ts] does not pass.  [Sources] says
      which of the two is there; a statement about [asTheyAre], or under
      [subject P = NotExported], is about the files alone, and a statement
      about a [Wiring] is about the files with a subject supplied. *)

From Stdlib Require Import Ascii String.
From stdpp Require Import base gmap strings list.

Local Open Scope string_scope.

(** ** Exceptions *)

Record JsError := mkError { errName : string; errMessage : string }.

Inductive Result (A : Type) : Type :=
| Ok (a : A)
| Throw (e : JsError).
Arguments Ok {A} a.
Arguments Throw {A} e.

Definition isOk {A} (r : Result A) : bool :=
  match r with Ok _ => true | Throw _ => false end.

(** ** JavaScript strings *)

Module JsString.

(** The double quote, for building literals that contain it. *)
Definition dquote : string := String (Ascii.ascii_of_nat 34) EmptyString.

Definition code (c : ascii) : nat := Ascii.nat_of_ascii c.

(** [String.prototype.toLowerCase] on one code unit below 256: A-Z and the
    Latin-1 capitals move up by 32. *)
Definition isUpper (c : ascii) : bool :=
  let n := code c in
  (((65 <=? n) && (n <=? 90)) ||
   ((192 <=? n) && (n <=? 222) && negb (n =? 215)))%nat.

Definition toLowerChar (c : ascii) : ascii :=
  if isUpper c then Ascii.ascii_of_nat (code c + 32) else c.

Fixpoint toLowerCase (s : string) : string :=
  match s with
  | EmptyString => EmptyString
  | String c r => String (toLowerChar c) (toLowerCase r)
  end.

(** White space and line terminators below 256: TAB, LF, VT, FF, CR, SP and
    NBSP. *)
Definition isWhiteSpace (c : ascii) : bool :=
  let n := code c in
  (((9 <=? n) && (n <=? 13)) || (n =? 32) || (n =? 160))%nat.

Fixpoint trimLeft (s : string) : string :=
  match s with
  | EmptyString => EmptyString
  | String c r => if isWhiteSpace c then trimLeft r else s
  end.

Fixpoint take (n : nat) (s : string) : string :=
  match n, s with
  | S n', String c r => String c (take n' r)
  | _, _ => EmptyString
  end.

Fixpoint drop (n : nat) (s : string) : string :=
  match n, s with
  | S n', String _ r => drop n' r
  | _, _ => s
  end.

(** [s.slice(b, e)] for non-negative [b] and [e]. *)
Definition slice (b e : nat) (s : string) : string := take (e - b) (drop b s).

(** [s.startsWith(p)] *)
Definition startsWith (s p : string) : bool := String.prefix p s.

(** [if (s)] on a string: the empty string is falsy. *)
Definition truthy (s : string) : bool :=
  match s with EmptyString => false | _ => true end.

(** The words of the specification: [s] begins, case-insensitively, with
    [p]. *)
Fixpoint beginsWithCI (p s : string) : bool :=
  match p, s with
  | EmptyString, _ => true
  | String a p', String b s' =>
      Ascii.eqb (toLowerChar a) (toLowerChar b) && beginsWithCI p' s'
  | String _ _, EmptyString => false
  end.

End JsString.
Import JsString.

(** ** The parsed document (cheerio / htmlparser2) *)

#[local] Set Warnings "-register-all".

Inductive node : Type :=
| Text (data : string)
| Element (name : string) (attribs : gmap string string) (children : list node).

Section node_induction.
Variable P : node -> Prop.
Hypothesis HText : forall d, P (Text d).
Hypothesis HElement :
  forall nm at_ ch, Forall P ch -> P (Element nm at_ ch).

Fixpoint node_ind' (n : node) : P n :=
  match n with
  | Text d => HText d
  | Element nm at_ ch =>
      HElement nm at_ ch
        ((fix go (l : list node) : Forall P l :=
            match l with
            | [] => List.Forall_nil P
            | x :: xs => List.Forall_cons P x xs (node_ind' x) (go xs)
            end) ch)
  end.
End node_induction.

(** [$('img')]: the attribute objects of the [img] elements, in document
    order. *)
Fixpoint imgsOf (n : node) : list (gmap string string) :=
  match n with
  | Text _ => []
  | Element nm at_ ch =>
      ((if String.eqb nm "img" then [at_] else []) ++ flat_map imgsOf ch)%list
  end.

Definition selectImg (dom : list node) : list (gmap string string) :=
  flat_map imgsOf dom.

(** ** What the code takes from the editor and from its libraries *)

Record TextDocument := {
  doc_id : nat;          (* the identity [===] compares *)
  fileName : string;
  fsPath : string;       (* [uri.fsPath] *)
}.

Inductive Json : Type :=
| JNull
| JBool (b : bool)
| JNumber (z : Z)
| JString (s : string)
| JArray (items : list Json)
| JObject (members : list (string * Json)).

(** [{}] *)
Definition emptyObject : Json := JObject [].

Record Libs := {
  Template : Type;
  (** Handlebars [compile] *)
  hb_compile : string -> Result Template;
  (** calling the compiled template; it reads the global partial registry *)
  hb_template : Template -> gmap string string -> Json -> Result string;
  JSON_parse : string -> Result Json;
  (** [JSON.stringify(err)] *)
  JSON_stringify : JsError -> string;
  (** cheerio [load] and [$.html] *)
  loadDocument : string -> list node;
  dom_html : list node -> string;
  path_join : string -> string -> string;
  path_dirname : string -> string;
  path_basename : string -> string;
  (** [uri.with({ scheme, path }).toString()] *)
  uri_with : TextDocument -> string -> string -> string;
  (** [./partial-name-generator], which is not part of the sources *)
  partialNameGenerator : string -> string -> string;
}.

Record Host := {
  getText : TextDocument -> string;
  (** [promises.readFile(path, 'utf8')] *)
  readFile : string -> Result string;
  existsSync : string -> bool;
  (** [workspace.getWorkspaceFolder], on [fsPath]s *)
  getWorkspaceFolder : string -> option string;
  (** [workspace.findFiles] of the template files below a folder *)
  findFiles : string -> list string;
}.

(** ** [repathImages] *)

Section Repath.
Context (L : Libs).

(** The callback given to [.filter]. *)
Definition keepImg (at_ : gmap string string) : Result bool :=
  match at_ !! "src" with
  | None =>
      Throw (mkError "TypeError" "Cannot read property 'trimLeft' of undefined")
  | Some src =>
      Ok (negb (String.eqb (toLowerCase (slice 0 5 (trimLeft src))) "data:")
          && negb (startsWith (toLowerCase src) "http"))
  end.

(** [.filter] calls the callback on every selected element, in order, and
    stops at the first one that throws. *)
Fixpoint filterImgs (sel : list (gmap string string))
  : Result (list (gmap string string)) :=
  match sel with
  | [] => Ok []
  | at_ :: rest =>
      match keepImg at_ with
      | Throw e => Throw e
      | Ok b =>
          match filterImgs rest with
          | Throw e => Throw e
          | Ok kept => Ok (if b then at_ :: kept else kept)
          end
      end
  end.

(** The callback given to [.each]. *)
Definition newSrc (templateDocument : TextDocument) (src : string) : string :=
  uri_with L templateDocument "vscode-resource"
    (path_join L (path_dirname L (fileName templateDocument)) src).

Definition repathAttribs (templateDocument : TextDocument)
    (at_ : gmap string string) : gmap string string :=
  match keepImg at_, at_ !! "src" with
  | Ok true, Some src => <["src" := newSrc templateDocument src]> at_
  | _, _ => at_
  end.

(** The document after [.each] has run on the elements [.filter] kept. *)
Fixpoint repathNode (templateDocument : TextDocument) (n : node) : node :=
  match n with
  | Text d => Text d
  | Element nm at_ ch =>
      Element nm
        (if String.eqb nm "img" then repathAttribs templateDocument at_ else at_)
        (map (repathNode templateDocument) ch)
  end.

Definition repathImages (html : string) (templateDocument : TextDocument)
  : Result string :=
  let dom := loadDocument L html in
  match filterImgs (selectImg dom) with
  | Throw e => Throw e
  | Ok _ => Ok (dom_html L (map (repathNode templateDocument) dom))
  end.

(** The words of the specification for one reference. *)
Definition spec_rewriteSrc (templateDirectoryPath : string)
    (rewriteFn : string -> string) (src : string) : string :=
  if beginsWithCI "data:" (trimLeft src) || beginsWithCI "http" src
  then src
  else rewriteFn (path_join L templateDirectoryPath src).

(** The document with the [src] of every [img] removed: what rewriting
    must not touch. *)
Fixpoint eraseImgSrc (n : node) : node :=
  match n with
  | Text d => Text d
  | Element nm at_ ch =>
      Element nm (if String.eqb nm "img" then delete "src" at_ else at_)
        (map eraseImgSrc ch)
  end.

End Repath.

(** ** The module state *)

(** One [PreviewPanelScope] object, with the state of the webview panel and
    of the file system watcher it owns. *)
Record PreviewPanelScope := {
  document : TextDocument;
  contextFileName : string;
  webview_html : string;      (* [panel.webview.html] *)
  panelDisposed : bool;       (* the panel has fired [onDidDispose] *)
  disposeCalls : nat;         (* calls of [panel.dispose()] received *)
  watcherDisposed : bool;     (* [contextWatcher.dispose()] has run *)
}.

Record World := {
  (** [const panels: PreviewPanelScope[]], as references into [heap] *)
  panels : list nat;
  heap : gmap nat PreviewPanelScope;
  nextRef : nat;
  (** the partial registry of Handlebars *)
  partials : gmap string string;
  (** the keys of [partialsRegisteredByWorkspace] *)
  partialsRegisteredByWorkspace : gset string;
  (** what [showErrorMessage.next] was called with, oldest first *)
  showErrorMessage : list (option (nat * string));
  (** [window.showInformationMessage] *)
  infoMessages : list string;
  (** ghost: the folders [workspace.findFiles] was called on *)
  scans : list string;
  (** ghost: the sessions [getCompiledHtml] was entered for *)
  renders : list nat;
}.

Definition initial : World := {|
  panels := []; heap := ∅; nextRef := 0; partials := ∅;
  partialsRegisteredByWorkspace := ∅; showErrorMessage := [];
  infoMessages := []; scans := []; renders := [] |}.

Definition set_panels (f : list nat -> list nat) (w : World) : World :=
  {| panels := f (panels w); heap := heap w; nextRef := nextRef w;
     partials := partials w;
     partialsRegisteredByWorkspace := partialsRegisteredByWorkspace w;
     showErrorMessage := showErrorMessage w; infoMessages := infoMessages w;
     scans := scans w; renders := renders w |}.

Definition set_heap (f : gmap nat PreviewPanelScope -> gmap nat PreviewPanelScope)
    (w : World) : World :=
  {| panels := panels w; heap := f (heap w); nextRef := nextRef w;
     partials := partials w;
     partialsRegisteredByWorkspace := partialsRegisteredByWorkspace w;
     showErrorMessage := showErrorMessage w; infoMessages := infoMessages w;
     scans := scans w; renders := renders w |}.

Definition set_nextRef (n : nat) (w : World) : World :=
  {| panels := panels w; heap := heap w; nextRef := n;
     partials := partials w;
     partialsRegisteredByWorkspace := partialsRegisteredByWorkspace w;
     showErrorMessage := showErrorMessage w; infoMessages := infoMessages w;
     scans := scans w; renders := renders w |}.

Definition set_partials (f : gmap string string -> gmap string string)
    (w : World) : World :=
  {| panels := panels w; heap := heap w; nextRef := nextRef w;
     partials := f (partials w);
     partialsRegisteredByWorkspace := partialsRegisteredByWorkspace w;
     showErrorMessage := showErrorMessage w; infoMessages := infoMessages w;
     scans := scans w; renders := renders w |}.

Definition set_registered (f : gset string -> gset string) (w : World) : World :=
  {| panels := panels w; heap := heap w; nextRef := nextRef w;
     partials := partials w;
     partialsRegisteredByWorkspace := f (partialsRegisteredByWorkspace w);
     showErrorMessage := showErrorMessage w; infoMessages := infoMessages w;
     scans := scans w; renders := renders w |}.

Definition log_error (v : option (nat * string)) (w : World) : World :=
  {| panels := panels w; heap := heap w; nextRef := nextRef w;
     partials := partials w;
     partialsRegisteredByWorkspace := partialsRegisteredByWorkspace w;
     showErrorMessage := (showErrorMessage w ++ [v])%list;
     infoMessages := infoMessages w;
     scans := scans w; renders := renders w |}.

Definition log_info (m : string) (w : World) : World :=
  {| panels := panels w; heap := heap w; nextRef := nextRef w;
     partials := partials w;
     partialsRegisteredByWorkspace := partialsRegisteredByWorkspace w;
     showErrorMessage := showErrorMessage w;
     infoMessages := (infoMessages w ++ [m])%list;
     scans := scans w; renders := renders w |}.

Definition log_scan (root : string) (w : World) : World :=
  {| panels := panels w; heap := heap w; nextRef := nextRef w;
     partials := partials w;
     partialsRegisteredByWorkspace := partialsRegisteredByWorkspace w;
     showErrorMessage := showErrorMessage w; infoMessages := infoMessages w;
     scans := (scans w ++ [root])%list; renders := renders w |}.

Definition log_render (r : nat) (w : World) : World :=
  {| panels := panels w; heap := heap w; nextRef := nextRef w;
     partials := partials w;
     partialsRegisteredByWorkspace := partialsRegisteredByWorkspace w;
     showErrorMessage := showErrorMessage w; infoMessages := infoMessages w;
     scans := scans w; renders := (renders w ++ [r])%list |}.

(** Field updates of one session object. *)
Definition with_html (html : string) (s : PreviewPanelScope) : PreviewPanelScope :=
  {| document := document s; contextFileName := contextFileName s;
     webview_html := html; panelDisposed := panelDisposed s;
     disposeCalls := disposeCalls s; watcherDisposed := watcherDisposed s |}.

Definition with_panelDisposed (s : PreviewPanelScope) : PreviewPanelScope :=
  {| document := document s; contextFileName := contextFileName s;
     webview_html := webview_html s; panelDisposed := true;
     disposeCalls := disposeCalls s; watcherDisposed := watcherDisposed s |}.

Definition with_disposeCall (s : PreviewPanelScope) : PreviewPanelScope :=
  {| document := document s; contextFileName := contextFileName s;
     webview_html := webview_html s; panelDisposed := panelDisposed s;
     disposeCalls := S (disposeCalls s); watcherDisposed := watcherDisposed s |}.

Definition with_watcherDisposed (s : PreviewPanelScope) : PreviewPanelScope :=
  {| document := document s; contextFileName := contextFileName s;
     webview_html := webview_html s; panelDisposed := panelDisposed s;
     disposeCalls := disposeCalls s; watcherDisposed := true |}.

(** The object the constructor builds: an open panel with nothing in it and
    a live watcher. *)
Definition fresh (doc : TextDocument) (contextFileName : string)
  : PreviewPanelScope :=
  {| document := doc; contextFileName := contextFileName; webview_html := "";
     panelDisposed := false; disposeCalls := 0; watcherDisposed := false |}.

(** ** The state and error monad *)

Definition M (A : Type) : Type := World -> Result A * World.

Definition ret {A} (a : A) : M A := fun w => (Ok a, w).

Definition bind {A B} (m : M A) (k : A -> M B) : M B :=
  fun w =>
    match m w with
    | (Ok a, w') => k a w'
    | (Throw e, w') => (Throw e, w')
    end.

Definition lift {A} (r : Result A) : M A := fun w => (r, w).

Definition gets {A} (f : World -> A) : M A := fun w => (Ok (f w), w).

Definition modify (f : World -> World) : M unit := fun w => (Ok tt, f w).

(** [try { m } catch (err) { handler err }] *)
Definition tryCatch {A} (m : M A) (handler : JsError -> M A) : M A :=
  fun w =>
    match m w with
    | (Ok a, w') => (Ok a, w')
    | (Throw e, w') => handler e w'
    end.

Notation "x <<- m ;; k" := (bind m (fun x => k))
  (at level 100, m at next level, right associativity).
Notation "m ;;; k" := (bind m (fun _ => k))
  (at level 100, right associativity).

(** [for (const x of xs) { await body x }] *)
Fixpoint forOf {A} (xs : list A) (body : A -> M unit) : M unit :=
  match xs with
  | [] => ret tt
  | x :: rest => body x ;;; forOf rest body
  end.

(** ** JavaScript arrays *)

(** [l.indexOf(x)] *)
Fixpoint indexOf (x : nat) (l : list nat) : Z :=
  match l with
  | [] => (-1)%Z
  | y :: ys =>
      if (x =? y)%nat then 0%Z
      else let i := indexOf x ys in if (i <? 0)%Z then (-1)%Z else (i + 1)%Z
  end.

(** [l.splice(start, 1)]: a negative [start] counts from the end. *)
Definition splice1 (start : Z) (l : list nat) : list nat :=
  let len := Z.of_nat (length l) in
  let actualStart :=
    if (start <? 0)%Z then Z.max (len + start) 0 else Z.min start len in
  delete (Z.to_nat actualStart) l.

(** ** The parts of [./extension] that the sources do not have

    [preview-panel-scope.ts] takes a callback [onPreviewPanelClosed] in its
    constructor and imports a subject [showErrorMessage] from [./extension];
    [extension.ts] as it is in the sources passes no callback and exports no
    subject.  A [Wiring] is an [./extension] that supplies the subject, with
    or without the callback and the subscriber; [Sources] is what the
    program is run with: the sources as they are, where the imported
    [showErrorMessage] is [undefined], or a wiring. *)

Inductive ClosedCallback :=
| NoCallback          (* line 48 of [extension.ts]: one argument only *)
| RemoveFromPanels.   (* the registry's [remove(session)] of the specification *)

Inductive ErrorSubscriber :=
| NoSubscriber        (* a subject nobody has subscribed to *)
| ShowsErrorPage.     (* the error page of the specification *)

Record Wiring := {
  closedCallback : ClosedCallback;
  errorSubscriber : ErrorSubscriber;
}.

(** [showErrorMessage] as [preview-panel-scope.ts] finds it at line 6. *)
Inductive Subject :=
| NotExported         (* [extension.ts] as it is: the import is [undefined] *)
| Exported (subscriber : ErrorSubscriber).

Record Sources := {
  closed : ClosedCallback;
  subject : Subject;
}.

(** The sources completed by a wiring. *)
Definition supplied (W : Wiring) : Sources :=
  {| closed := closedCallback W; subject := Exported (errorSubscriber W) |}.
Coercion supplied : Wiring >-> Sources.

(** The callback and the subject as [src/extension.ts] has them: line 48
    passes no callback, and the file exports no [showErrorMessage]. *)
Definition asTheyAre : Sources :=
  {| closed := NoCallback; subject := NotExported |}.

(** What [showErrorMessage.next(...)] throws when [showErrorMessage] is
    [undefined]; the text of the message is the engine's. *)
Definition noSubject : JsError :=
  mkError "TypeError" "Cannot read properties of undefined (reading 'next')".

(** ** [preview-panel-scope.ts] *)

Section Program.
Context (L : Libs) (P : Sources).

Definition nl : string := String (Ascii.ascii_of_nat 10) EmptyString.

(** The template literal of [showErrorPage]. *)
Definition errorPage (message : string) : string :=
  nl +:+ "        <html style=" +:+ dquote +:+ "height: 100%;" +:+ dquote +:+ ">"
  +:+ nl +:+ "        <body style=" +:+ dquote
  +:+ "height: 100%; display: flex; align-items: center; align-content: center; justify-content: center;"
  +:+ dquote +:+ "><span>" +:+ message +:+ "</span></body>"
  +:+ nl +:+ "        </html>"
  +:+ nl +:+ "        ".

(** [this.panel.webview.html = html] *)
Definition set_html (r : nat) (html : string) (w : World) : World :=
  set_heap (alter (with_html html) r) w.

Definition showErrorPage (r : nat) (message : string) (w : World) : World :=
  set_html r (errorPage message) w.

(** Modelled from the spec: the subscriber of [showErrorMessage] in
    [./extension], which is missing from the sources.  "If compile/render
    fails, the session displays a minimal error page (centered message
    text) in place of template output": a message for a panel calls that
    panel's [showErrorPage]; [null] does nothing. *)
Definition errorSubscription (v : option (nat * string)) (w : World) : World :=
  match subject P, v with
  | Exported ShowsErrorPage, Some (panel, message) =>
      showErrorPage panel message w
  | _, _ => w
  end.

(** [showErrorMessage.next(v)].  With the sources as they are
    [showErrorMessage] is [undefined] and the call throws, before its
    argument is evaluated.  The second case is not in the sources: with a
    subject exported, [next] is taken to hand the value to the subscriber
    and to return, as a [Subject] of rxjs does. *)
Definition showErrorMessage_next (v : option (nat * string)) : M unit :=
  match subject P with
  | NotExported => lift (Throw noSubject)
  | Exported _ => modify (fun w => errorSubscription v (log_error v w))
  end.

Definition renderError (err : JsError) : string :=
  "Error rendering handlebars template: " +:+ JSON_stringify L err.

(** Modelled from the spec: the callback the registry passes as
    [onPreviewPanelClosed], which is missing from the sources.
    "[remove(session)]: invoked by a session's own closure transition;
    removes it from the active set." *)
Definition remove (r : nat) (w : World) : World :=
  set_panels (filter (fun x => x ≠ r)) w.

(** [onPreviewPanelClosed(this)].  Without a callback the call fails inside
    the listener, after the watcher is released, and the failure stays
    there. *)
Definition onPreviewPanelClosed (r : nat) (w : World) : World :=
  match closed P with
  | NoCallback => w
  | RemoveFromPanels => remove r w
  end.

(** The listener of [this.panel.onDidDispose], lines 22 to 25. *)
Definition onDidDispose (r : nat) (w : World) : World :=
  onPreviewPanelClosed r (set_heap (alter with_watcherDisposed r) w).

(** The panel is closed, by the user or by [dispose()]: it fires
    [onDidDispose] once. *)
Definition surfaceClosed (r : nat) (w : World) : World :=
  match heap w !! r with
  | Some s =>
      if panelDisposed s then w
      else onDidDispose r (set_heap (alter with_panelDisposed r) w)
  | None => w
  end.

(** [this.panel.dispose()] *)
Definition panel_dispose (r : nat) (w : World) : World :=
  surfaceClosed r (set_heap (alter with_disposeCall r) w).

Definition disposePreviewPanel (r : nat) : M unit := modify (panel_dispose r).

Definition getContextFileName (h : Host) (templateFileName : string) : M string :=
  let contextFileName := templateFileName +:+ ".json" in
  (if existsSync h contextFileName then ret tt
   else modify (log_info ("Tip: create a file named "
                          +:+ path_basename L contextFileName
                          +:+ " with your test data"))) ;;;
  ret contextFileName.

(** [new PreviewPanelScope(document, onPreviewPanelClosed)] *)
Definition newPreviewPanelScope (h : Host) (doc : TextDocument) : M nat :=
  contextFileName <<- getContextFileName h (fileName doc) ;;
  r <<- gets nextRef ;;
  modify (fun w =>
    set_nextRef (S r) (set_heap (insert r (fresh doc contextFileName)) w)) ;;;
  ret r.

Definition getContextData (h : Host) (contextFile : string) : M Json :=
  tryCatch
    (contextJson <<- lift (readFile h contextFile) ;;
     lift (JSON_parse L contextJson))
    (fun _ => ret emptyObject).

(** [false] is [None]. *)
Definition renderTemplate (template : Template L) (templateContext : Json)
    (panel : nat) : M (option string) :=
  tryCatch
    (reg <<- gets partials ;;
     html <<- lift (hb_template L template reg templateContext) ;;
     showErrorMessage_next None ;;;
     ret (Some html))
    (fun err =>
       showErrorMessage_next (Some (panel, renderError err)) ;;;
       ret None).

Definition getCompiledHtml (h : Host) (templateDocument : TextDocument)
    (contextFile : string) (panel : nat) : M (option string) :=
  modify (log_render panel) ;;;
  context <<- getContextData h contextFile ;;
  let template := getText h templateDocument in
  tryCatch
    (compiledTemplate <<- lift (hb_compile L template) ;;
     rendered <<- renderTemplate compiledTemplate context panel ;;
     match rendered with
     | None => ret None
     | Some rendered =>
         out <<- lift (repathImages L
                         (if truthy rendered then rendered else "")
                         templateDocument) ;;
         ret (Some out)
     end)
    (fun err =>
       showErrorMessage_next (Some (panel, renderError err)) ;;;
       ret None).

(** [if (html) { this.panel.webview.html = html; }] *)
Definition showHtml (r : nat) (html : option string) : M unit :=
  match html with
  | Some html => if truthy html then modify (set_html r html) else ret tt
  | None => ret tt
  end.

Definition update (h : Host) (r : nat) : M unit :=
  this <<- gets (fun w => heap w !! r) ;;
  match this with
  | None => ret tt
  | Some this =>
      html <<- getCompiledHtml h (document this) (contextFileName this) r ;;
      showHtml r html
  end.

(** The listener of [this.contextWatcher.onDidChange], lines 28 to 34; a
    released watcher fires no more. *)
Definition contextFileChanged (h : Host) (r : nat) : M unit :=
  this <<- gets (fun w => heap w !! r) ;;
  match this with
  | None => ret tt
  | Some this =>
      if watcherDisposed this then ret tt
      else
        html <<- getCompiledHtml h (document this) (contextFileName this) r ;;
        showHtml r html
  end.

(** [event.document === this.document ||
     event.document.fileName === this.contextFileName] *)
Definition concerns (this : PreviewPanelScope) (eventDocument : TextDocument)
  : bool :=
  (doc_id eventDocument =? doc_id (document this))%nat
  || String.eqb (fileName eventDocument) (contextFileName this).

Definition workspaceDocumentChanged (h : Host) (eventDocument : TextDocument)
    (r : nat) : M unit :=
  this <<- gets (fun w => heap w !! r) ;;
  match this with
  | None => ret tt
  | Some this =>
      if concerns this eventDocument then update h r else ret tt
  end.

(** ** The pipeline in the words of the specification

    "[loadContext]: reads and parses the file; on any failure returns an
    empty object."  "[getCompiledHtml] composes compile, render, rewrite,
    short-circuiting to an error on the first failure." *)

Definition loadContext (h : Host) (contextPath : string) : Json :=
  match readFile h contextPath with
  | Throw _ => emptyObject
  | Ok text =>
      match JSON_parse L text with
      | Throw _ => emptyObject
      | Ok value => value
      end
  end.

Inductive Outcome :=
| CompileFailed (e : JsError)
| RenderFailed (e : JsError)
| RewriteFailed (e : JsError)
| Rendered (html : string).

Definition pipeline (h : Host) (templateDocument : TextDocument)
    (contextFile : string) (registry : gmap string string) : Outcome :=
  match hb_compile L (getText h templateDocument) with
  | Throw e => CompileFailed e
  | Ok compiled =>
      match hb_template L compiled registry (loadContext h contextFile) with
      | Throw e => RenderFailed e
      | Ok rendered =>
          match repathImages L rendered templateDocument with
          | Throw e => RewriteFailed e
          | Ok html => Rendered html
          end
      end
  end.

(** What the caller gets: the HTML, or [false]. *)
Definition htmlOf (o : Outcome) : option string :=
  match o with Rendered html => Some html | _ => None end.

(** What [showErrorMessage], when it is exported, is sent on the way. *)
Definition emitted (panel : nat) (o : Outcome) : list (option (nat * string)) :=
  match o with
  | CompileFailed e => [Some (panel, renderError e)]
  | RenderFailed e => [Some (panel, renderError e)]
  | RewriteFailed e => [None; Some (panel, renderError e)]
  | Rendered _ => [None]
  end.

Definition emit (vs : list (option (nat * string))) (w : World) : World :=
  fold_left (fun w v => errorSubscription v (log_error v w)) vs w.


(** The session object after an [update] that returns, by the outcome of
    the pipeline. *)
Definition afterUpdate (s : PreviewPanelScope) (o : Outcome)
  : PreviewPanelScope :=
  match o with
  | Rendered html => if truthy html then with_html html s else s
  | CompileFailed e | RenderFailed e | RewriteFailed e =>
      match subject P with
      | Exported ShowsErrorPage => with_html (errorPage (renderError e)) s
      | _ => s
      end
  end.

(** ** [extension.ts] *)

Definition partialsRegistered (workspaceRoot : string) (w : World) : bool :=
  bool_decide (workspaceRoot ∈ partialsRegisteredByWorkspace w).

(** [registerPartial(name, content)] *)
Definition registerPartial (name content : string) : M unit :=
  modify (set_partials (insert name content)).

(** [registerPartial(object)]: every entry of the object is assigned. *)
Definition registerPartials (known : gmap string string) : M unit :=
  modify (set_partials (fun reg => known ∪ reg)).

(** The loop of [findAndRegisterPartials], lines 67 to 73. *)
Fixpoint collectPartials (h : Host) (hbsFiles : list string)
    (knownPartials : gmap string string) : Result (gmap string string) :=
  match hbsFiles with
  | [] => Ok knownPartials
  | hbs :: rest =>
      match getWorkspaceFolder h hbs with
      | Some workspaceFolder =>
          match readFile h hbs with
          | Throw e => Throw e
          | Ok content =>
              collectPartials h rest
                (<[partialNameGenerator L hbs workspaceFolder := content]>
                   knownPartials)
          end
      | None => collectPartials h rest knownPartials
      end
  end.

Definition findAndRegisterPartials (h : Host) (workspaceFolder : string)
  : M unit :=
  modify (log_scan workspaceFolder) ;;;
  let hbsFiles := findFiles h workspaceFolder in
  knownPartials <<- lift (collectPartials h hbsFiles ∅) ;;
  registerPartials knownPartials ;;;
  modify (set_registered (fun reg => {[workspaceFolder]} ∪ reg)).

(** [panels.find(x => x.editorFilePath() === path)] *)
Definition findPanel (path : string) (w : World) : option nat :=
  List.find
    (fun r =>
       match heap w !! r with
       | Some x => String.eqb (fsPath (document x)) path
       | None => false
       end)
    (panels w).

(** Lines 30 to 35: the panel that is open for the path, if any, is
    disposed and taken out of [panels]. *)
Definition disposeExisting (path : string) : M unit :=
  existingPanel <<- gets (findPanel path) ;;
  match existingPanel with
  | Some existingPanel =>
      disposePreviewPanel existingPanel ;;;
      modify (fun w =>
        set_panels (splice1 (indexOf existingPanel (panels w))) w)
  | None => ret tt
  end.

(** Lines 47 to 53.  [extension.ts] hands the constructor the editor, the
    constructor of [preview-panel-scope.ts] takes a document: the session is
    built on the document of the editor. *)
Definition openPanel (h : Host) (doc : TextDocument) : M unit :=
  tryCatch
    (panel <<- newPreviewPanelScope h doc ;;
     update h panel ;;;
     modify (set_panels (fun ps => (ps ++ [panel])%list)))
    (fun _ => ret tt).

(** Lines 37 to 53. *)
Definition openInWorkspace (h : Host) (doc : TextDocument) : M unit :=
  match getWorkspaceFolder h (fsPath doc) with
  | None => ret tt
  | Some workspaceRoot =>
      registered <<- gets (partialsRegistered workspaceRoot) ;;
      (if registered then ret tt
       else findAndRegisterPartials h workspaceRoot) ;;;
      openPanel h doc
  end.

(** Whether lines 37 to 53 get as far as opening a panel: the document has
    a workspace folder, and the partials of the folder are registered or
    can all be read. *)
Definition opens (h : Host) (doc : TextDocument) (w : World) : bool :=
  match getWorkspaceFolder h (fsPath doc) with
  | None => false
  | Some root =>
      partialsRegistered root w
      || isOk (collectPartials h (findFiles h root) ∅)
  end.

(** The command [extension.previewHandlebars], lines 23 to 54. *)
Definition previewHandlebars (h : Host) (editor : option TextDocument) : M unit :=
  match editor with
  | None => ret tt
  | Some doc => disposeExisting (fsPath doc) ;;; openInWorkspace h doc
  end.

(** The listener of [workspace.onDidChangeTextDocument], lines 15 to 19. *)
Definition didChangeTextDocument (h : Host) (eventDocument : TextDocument)
  : M unit :=
  ps <<- gets panels ;;
  forOf ps (workspaceDocumentChanged h eventDocument).

(** The listener of [watcher.onDidCreate], lines 83 to 100. *)
Definition partialCreated (h : Host) (e : string) : M unit :=
  match getWorkspaceFolder h e with
  | None => ret tt
  | Some workspaceFolder =>
      content <<- lift (readFile h e) ;;
      registerPartials {[partialNameGenerator L e workspaceFolder := content]} ;;;
      ps <<- gets panels ;;
      forOf ps (update h)
  end.

(** The listener of [watcher.onDidChange], lines 102 to 117. *)
Definition partialChanged (h : Host) (e : string) : M unit :=
  match getWorkspaceFolder h e with
  | None => ret tt
  | Some workspaceFolder =>
      content <<- lift (readFile h e) ;;
      registerPartial (partialNameGenerator L e workspaceFolder) content ;;;
      ps <<- gets panels ;;
      forOf ps (update h)
  end.

(** [panels.forEach(x => x.disposePreviewPanel())]: [forEach] visits the
    indices below the length the array had at the start, and reads the
    array as it is when it comes to each index. *)
Fixpoint forEachDispose (k : nat) (remaining : nat) (w : World) : World :=
  match remaining with
  | O => w
  | S remaining' =>
      match panels w !! k with
      | Some r => forEachDispose (S k) remaining' (panel_dispose r w)
      | None => forEachDispose (S k) remaining' w
      end
  end.

Definition deactivate : M unit :=
  modify (fun w => forEachDispose 0 (length (panels w)) w).

(** ** Events *)

Inductive Event : Type :=
| PreviewCommand (h : Host) (editor : option TextDocument)
| DidChangeTextDocument (h : Host) (eventDocument : TextDocument)
| ContextFileChanged (h : Host) (r : nat)
| PartialCreated (h : Host) (e : string)
| PartialChanged (h : Host) (e : string)
| SurfaceClosed (r : nat)
| Deactivate.

Definition handler (ev : Event) : M unit :=
  match ev with
  | PreviewCommand h editor => previewHandlebars h editor
  | DidChangeTextDocument h d => didChangeTextDocument h d
  | ContextFileChanged h r => contextFileChanged h r
  | PartialCreated h e => partialCreated h e
  | PartialChanged h e => partialChanged h e
  | SurfaceClosed r => modify (surfaceClosed r)
  | Deactivate => deactivate
  end.

(** The state a handler leaves behind, whether it returned or threw. *)
Definition handle (ev : Event) (w : World) : World := snd (handler ev w).

Definition run (evs : list Event) (w : World) : World :=
  fold_left (fun w ev => handle ev w) evs w.

Definition reachable (w : World) : Prop := exists evs, w = run evs initial.

(** The sessions of [panels] bound to a document path. *)
Definition sessionsFor (path : string) (w : World) : list nat :=
  List.filter
    (fun r =>
       match heap w !! r with
       | Some x => String.eqb (fsPath (document x)) path
       | None => false
       end)
    (panels w).

End Program.

(** ** Node's [path.posix], for the examples

    [Libs] leaves [path] open.  The functions below follow the documented
    behaviour of [path.posix.join], [normalize], [dirname] and [basename],
    and instantiate it where a statement needs a concrete path. *)

Module Posix.

Definition isSlash (c : ascii) : bool := Ascii.eqb c "/"%char.

(** [path.split('/')] *)
Fixpoint split (s : string) : list string :=
  match s with
  | EmptyString => [EmptyString]
  | String c r =>
      if isSlash c then EmptyString :: split r
      else match split r with
           | x :: xs => String c x :: xs
           | [] => [String c EmptyString]
           end
  end.

(** [normalizeString]: [acc] holds the segments kept so far, last first. *)
Fixpoint normalizeSegments (allowAboveRoot : bool) (segs acc : list string)
  : list string :=
  match segs with
  | [] => rev acc
  | seg :: rest =>
      if String.eqb seg "" || String.eqb seg "." then
        normalizeSegments allowAboveRoot rest acc
      else if String.eqb seg ".." then
        match acc with
        | last :: acc' =>
            if String.eqb last ".."
            then normalizeSegments allowAboveRoot rest (".." :: acc)
            else normalizeSegments allowAboveRoot rest acc'
        | [] =>
            normalizeSegments allowAboveRoot rest
              (if allowAboveRoot then [".."] else [])
        end
      else normalizeSegments allowAboveRoot rest (seg :: acc)
  end.

Definition endsWithSlash (s : string) : bool :=
  match rev (list_ascii_of_string s) with
  | c :: _ => isSlash c
  | [] => false
  end.

Definition normalize (path : string) : string :=
  match path with
  | EmptyString => "."
  | String c _ =>
      let isAbsolute := isSlash c in
      let trailingSeparator := endsWithSlash path in
      let p := String.concat "/"
                 (normalizeSegments (negb isAbsolute) (split path) []) in
      match p with
      | EmptyString =>
          if isAbsolute then "/" else if trailingSeparator then "./" else "."
      | _ =>
          let p := if trailingSeparator then p +:+ "/" else p in
          if isAbsolute then "/" +:+ p else p
      end
  end.

Definition join (a b : string) : string :=
  match a, b with
  | EmptyString, EmptyString => "."
  | EmptyString, _ => normalize b
  | _, EmptyString => normalize a
  | _, _ => normalize (a +:+ "/" +:+ b)
  end.

(** The scan of [dirname], from the last index down to index 1. *)
Fixpoint dirnameEnd (revTail : list ascii) (matchedSlash : bool) : option nat :=
  match revTail with
  | [] => None
  | c :: cs =>
      if isSlash c then
        if matchedSlash then dirnameEnd cs true else Some (S (length cs))
      else dirnameEnd cs false
  end.

Definition dirname (path : string) : string :=
  match path with
  | EmptyString => "."
  | String c r =>
      let hasRoot := isSlash c in
      match dirnameEnd (rev (list_ascii_of_string r)) true with
      | None => if hasRoot then "/" else "."
      | Some e => if hasRoot && (e =? 1)%nat then "//" else take e path
      end
  end.

Fixpoint dropSlashes (l : list ascii) : list ascii :=
  match l with
  | c :: cs => if isSlash c then dropSlashes cs else l
  | [] => []
  end.

Fixpoint takeSegment (l : list ascii) : list ascii :=
  match l with
  | c :: cs => if isSlash c then [] else c :: takeSegment cs
  | [] => []
  end.

Definition basename (path : string) : string :=
  string_of_list_ascii
    (rev (takeSegment (dropSlashes (rev (list_ascii_of_string path))))).

End Posix.

(** ** A concrete instance, for the examples

    A template engine that knows one template, [{{> header}}], a parser that
    knows three documents, and a host with one workspace folder. *)

Module Demo.

Definition img (src : option string) : node :=
  Element "img"
    (match src with Some s => {["src" := s]} | None => ∅ end) [].

Definition libs : Libs := {|
  Template := string;
  hb_compile := fun t =>
    if String.eqb t "{{#if" then Throw (mkError "Error" "Parse error") else Ok t;
  hb_template := fun t reg _ =>
    if String.eqb t "{{> header}}" then
      match reg !! "header" with
      | Some c => Ok c
      | None => Throw (mkError "Error" "The partial header could not be found")
      end
    else Ok t;
  JSON_parse := fun s =>
    if String.eqb s "{}" then Ok emptyObject
    else if String.eqb s "null" then Ok JNull
    else Throw (mkError "SyntaxError" "Unexpected token");
  JSON_stringify := fun e => "{}";
  loadDocument := fun html =>
    if String.eqb html "<img>" then [img None]
    else if String.eqb html "<img src=./img/logo.png>" then [img (Some "./img/logo.png")]
    else [Text html];
  dom_html := fun dom =>
    match dom with
    | [Text t] => t
    | [Element _ at_ _] => "<img src=" +:+ default "" (at_ !! "src") +:+ ">"
    | _ => ""
    end;
  path_join := Posix.join;
  path_dirname := Posix.dirname;
  path_basename := Posix.basename;
  uri_with := fun _ scheme path => scheme +:+ ":" +:+ path;
  partialNameGenerator := fun file root => Posix.basename file;
|}.

Definition files (content : string) : Host := {|
  getText := fun d =>
    if String.eqb (fileName d) "/proj/tpl/page.hbs" then "{{> header}}"
    else if String.eqb (fileName d) "/proj/tpl/bad.hbs" then "{{#if"
    else if String.eqb (fileName d) "/proj/tpl/img.hbs" then "<img>"
    else "<p>Hi</p>";
  readFile := fun p =>
    if String.eqb p "/proj/tpl/header" then Ok content
    else Throw (mkError "Error" "ENOENT");
  existsSync := fun _ => false;
  getWorkspaceFolder := fun p => Some "/proj";
  findFiles := fun _ => ["/proj/tpl/header"];
|}.

(** The same files, looked at when the folder has left the workspace. *)
Definition noFolder : Host := {|
  getText := getText (files "");
  readFile := readFile (files "");
  existsSync := fun _ => false;
  getWorkspaceFolder := fun _ => None;
  findFiles := fun _ => [];
|}.

Definition page : TextDocument :=
  {| doc_id := 1; fileName := "/proj/tpl/page.hbs"; fsPath := "/proj/tpl/page.hbs" |}.
Definition bad : TextDocument :=
  {| doc_id := 2; fileName := "/proj/tpl/bad.hbs"; fsPath := "/proj/tpl/bad.hbs" |}.
Definition plain : TextDocument :=
  {| doc_id := 3; fileName := "/proj/tpl/plain.hbs"; fsPath := "/proj/tpl/plain.hbs" |}.
Definition imgDoc : TextDocument :=
  {| doc_id := 4; fileName := "/proj/tpl/img.hbs"; fsPath := "/proj/tpl/img.hbs" |}.

(** A folder with a template file that cannot be read. *)
Definition broken : Host := {|
  getText := getText (files "");
  readFile := fun _ => Throw (mkError "Error" "EACCES");
  existsSync := fun _ => false;
  getWorkspaceFolder := fun _ => Some "/proj";
  findFiles := fun _ => ["/proj/tpl/footer"];
|}.

(** A folder with two template files that are given the same name, and a
    context file for every template. *)
Definition twoHeaders : Host := {|
  getText := getText (files "");
  readFile := fun p =>
    if String.eqb p "/proj/a/header" then Ok "A"
    else if String.eqb p "/proj/b/header" then Ok "B"
    else Throw (mkError "Error" "ENOENT");
  existsSync := fun _ => true;
  getWorkspaceFolder := fun _ => Some "/proj";
  findFiles := fun _ => ["/proj/a/header"; "/proj/b/header"];
|}.

(** A subject that is exported and has no subscriber, and no callback. *)
Definition bare : Wiring :=
  {| closedCallback := NoCallback; errorSubscriber := NoSubscriber |}.
(** The callback and the subscriber of the specification. *)
Definition wired : Wiring :=
  {| closedCallback := RemoveFromPanels; errorSubscriber := ShowsErrorPage |}.

End Demo.

(** ** Invariant and frame relations *)

(** The document path a reference of [panels] stands for. *)
Definition pathOf (w : World) (r : nat) : option string :=
  (fun x => fsPath (document x)) <$> heap w !! r.

Definition scansOf (root : string) (w : World) : nat :=
  length (filter (fun x => x = root) (scans w)).

Definition rendersOf (r : nat) (w : World) : nat :=
  length (filter (fun x => x = r) (renders w)).

(** What never changes in a session object, and what only grows. *)
Record keeps (s s' : PreviewPanelScope) : Prop := {
  k_document : document s' = document s;
  k_context : contextFileName s' = contextFileName s;
  k_panel : panelDisposed s = true -> panelDisposed s' = true;
  k_watcher : watcherDisposed s = true -> watcherDisposed s' = true;
  k_calls : disposeCalls s <= disposeCalls s';
}.

(** The registry is well formed and holds at most one session per path. *)
Record Inv (w : World) : Prop := {
  inv_panels : forall r, r ∈ panels w -> is_Some (heap w !! r);
  inv_heap : forall r, is_Some (heap w !! r) -> r < nextRef w;
  inv_paths : NoDup (pathOf w <$> panels w);
}.

(** A step that creates no session and scans no folder. *)
Record quiet (w w' : World) : Prop := {
  q_panels : panels w' `sublist_of` panels w;
  q_nextRef : nextRef w' = nextRef w;
  q_heap : forall r, option_Forall2 keeps (heap w !! r) (heap w' !! r);
  q_registered :
    partialsRegisteredByWorkspace w' = partialsRegisteredByWorkspace w;
  q_scans : scans w' = scans w;
}.

(** Any step: sessions are only added under fresh references, and a folder
    that is registered stays registered and is not scanned again. *)
Record grows (w w' : World) : Prop := {
  g_panels : forall r, r ∈ panels w' -> r ∈ panels w \/ nextRef w <= r;
  g_nextRef : nextRef w <= nextRef w';
  g_heap : forall r s, heap w !! r = Some s ->
           exists s', heap w' !! r = Some s' /\ keeps s s';
  g_registered :
    partialsRegisteredByWorkspace w ⊆ partialsRegisteredByWorkspace w';
  g_scans : forall root, root ∈ partialsRegisteredByWorkspace w ->
            scansOf root w' = scansOf root w;
}.

(** A step that leaves the sessions alone. *)
Record sameSessions (w w' : World) : Prop := {
  ss_panels : panels w' = panels w;
  ss_heap : heap w' = heap w;
  ss_nextRef : nextRef w' = nextRef w;
}.

(** A step that leaves the registry, the partials and the flags as they
    are. *)
Record static (w w' : World) : Prop := {
  st_panels : panels w' = panels w;
  st_partials : partials w' = partials w;
  st_nextRef : nextRef w' = nextRef w;
  st_registered :
    partialsRegisteredByWorkspace w' = partialsRegisteredByWorkspace w;
  st_scans : scans w' = scans w;
}.

(** A step that neither renders session [r] nor writes to its object. *)
Record untouched (r : nat) (w w' : World) : Prop := {
  un_heap : heap w' !! r = heap w !! r;
  un_renders : rendersOf r w' = rendersOf r w;
}.

(** Whatever it returns or throws, [m] moves the state along [R]. *)
Definition respects {A} (R : World -> World -> Prop) (m : M A) : Prop :=
  forall w, R w (snd (m w)).

(** ** Predicates for the properties below *)

(** The element has a [src]. *)
Definition hasSrc (at_ : gmap string string) : bool :=
  match at_ !! "src" with Some _ => true | None => false end.

(** The element has a [src] that the filter of [repathImages] skips. *)
Definition skipsSrc (at_ : gmap string string) : bool :=
  match at_ !! "src" with
  | Some src => beginsWithCI "data:" (trimLeft src) || beginsWithCI "http" src
  | None => false
  end.

(** The loop of [findAndRegisterPartials] gets past the file: it has no
    workspace folder, or it can be read. *)
Definition readable (h : Host) (hbs : string) : bool :=
  match getWorkspaceFolder h hbs with
  | Some _ => isOk (readFile h hbs)
  | None => true
  end.

(** The content of the last file of the list that is given the name. *)
Fixpoint lastNamed (L : Libs) (h : Host) (hbsFiles : list string)
    (name : string) : option string :=
  match hbsFiles with
  | [] => None
  | hbs :: rest =>
      match lastNamed L h rest name with
      | Some content => Some content
      | None =>
          match getWorkspaceFolder h hbs, readFile h hbs with
          | Some workspaceFolder, Ok content =>
              if String.eqb (partialNameGenerator L hbs workspaceFolder) name
              then Some content else None
          | _, _ => None
          end
      end
  end.

(** The command has to load the partials of the document's folder, and a
    file of the folder cannot be read. *)
Definition loadFails (L : Libs) (h : Host) (doc : TextDocument) (w : World)
  : bool :=
  match getWorkspaceFolder h (fsPath doc) with
  | Some root =>
      negb (bool_decide (root ∈ partialsRegisteredByWorkspace w))
      && negb (forallb (readable h) (findFiles h root))
  | None => false
  end.

(** The message of [getContextFileName]. *)
Definition tip (L : Libs) (doc : TextDocument) : string :=
  "Tip: create a file named "
  +:+ path_basename L (fileName doc +:+ ".json") +:+ " with your test data".

(** A step under which a property of the state, once true, stays true. *)
Definition preserving (P : World -> Prop) (w w' : World) : Prop := P w -> P w'.

(** No name leaves the partial registry. *)
Definition registryGrows (w w' : World) : Prop :=
  dom (partials w) ⊆ dom (partials w').

Definition sameInfo (w w' : World) : Prop := infoMessages w' = infoMessages w.

(** A session whose panel is disposed has released its watcher. *)
Definition watchersReleased (w : World) : Prop :=
  forall r s, heap w !! r = Some s ->
              panelDisposed s = true -> watcherDisposed s = true.

(** The context file of a session is the file of its document with [.json]
    appended. *)
Definition contextBound (w : World) : Prop :=
  forall r s, heap w !! r = Some s ->
              contextFileName s = fileName (document s) +:+ ".json".

(** * Properties *)

Ltac unfold_monad :=
  unfold bind, ret, lift, gets, modify, tryCatch in *.

(** Reads the callback and the subject off a wiring. *)
Ltac read_wiring := cbn [subject closed supplied] in *.

(** ** Strings *)

Section StringFacts.

Lemma truthy_or_empty (s : string) : (if truthy s then s else "") = s.
Proof. destruct s; reflexivity. Qed.

Lemma slice_from_start (n : nat) (s : string) : slice 0 n s = take n s.
Proof.
  unfold slice. rewrite Nat.sub_0_r. destruct n, s; reflexivity.
Qed.

(** A lower-case literal compared with the lower-cased head of a string is
    the case-insensitive prefix test. *)
Lemma take_lower_eqb (p s : string) :
  toLowerCase p = p ->
  String.eqb (toLowerCase (take (String.length p) s)) p = beginsWithCI p s.
Proof.
  revert s. induction p as [|a p IH]; intros s Hp.
  - destruct s; reflexivity.
  - injection Hp as Ha Hp'. destruct s as [|b s]; [reflexivity|].
    cbn [String.length take toLowerCase beginsWithCI String.eqb].
    rewrite Ha, (IH s Hp'). rewrite (Ascii.eqb_sym a). reflexivity.
Qed.

Lemma prefix_lower (p s : string) :
  toLowerCase p = p ->
  startsWith (toLowerCase s) p = beginsWithCI p s.
Proof.
  unfold startsWith. revert s. induction p as [|a p IH]; intros s Hp.
  - destruct s; reflexivity.
  - injection Hp as Ha Hp'. destruct s as [|b s]; [reflexivity|].
    cbn [toLowerCase beginsWithCI String.prefix].
    rewrite Ha. destruct (ascii_dec a (toLowerChar b)) as [->|Hne].
    + rewrite Ascii.eqb_refl. apply (IH s Hp').
    + apply Ascii.eqb_neq in Hne. rewrite Hne. reflexivity.
Qed.

Lemma data_check (src : string) :
  String.eqb (toLowerCase (slice 0 5 (trimLeft src))) "data:"
  = beginsWithCI "data:" (trimLeft src).
Proof.
  rewrite slice_from_start. apply (take_lower_eqb "data:"). reflexivity.
Qed.

Lemma http_check (src : string) :
  startsWith (toLowerCase src) "http" = beginsWithCI "http" src.
Proof. apply prefix_lower. reflexivity. Qed.

End StringFacts.

(** ** [repathImages] *)

Section RepathFacts.
Context (L : Libs).

Lemma keepImg_src (at_ : gmap string string) (src : string) :
  at_ !! "src" = Some src ->
  keepImg at_ =
    Ok (negb (beginsWithCI "data:" (trimLeft src) || beginsWithCI "http" src)).
Proof.
  intros H. unfold keepImg. rewrite H, data_check, http_check.
  f_equal. symmetry. apply negb_orb.
Qed.

Lemma keepImg_no_src (at_ : gmap string string) :
  at_ !! "src" = None -> exists e, keepImg at_ = Throw e.
Proof. intros H. unfold keepImg. rewrite H. eauto. Qed.

(** [.filter] returns exactly when every selected element has a [src]. *)
Lemma filterImgs_ok (sel : list (gmap string string)) :
  Forall (fun at_ => is_Some (at_ !! "src")) sel ->
  exists kept, filterImgs sel = Ok kept.
Proof.
  induction 1 as [|at_ sel [src Hsrc] _ [kept IH]]; [by eexists|].
  cbn [filterImgs]. rewrite (keepImg_src _ _ Hsrc), IH. eauto.
Qed.

Lemma filterImgs_throws (sel : list (gmap string string)) :
  Exists (fun at_ => at_ !! "src" = None) sel ->
  exists e, filterImgs sel = Throw e.
Proof.
  induction sel as [|at_ sel IH]; intros H; [by apply Exists_nil in H|].
  cbn [filterImgs]. destruct (at_ !! "src") as [src|] eqn:Hsrc.
  - apply Exists_cons in H as [H|H]; [congruence|].
    rewrite (keepImg_src _ _ Hsrc). destruct (IH H) as [e ->]. eauto.
  - destruct (keepImg_no_src _ Hsrc) as [e ->]. eauto.
Qed.

(** What [.each] does to one [img], in the words of the specification. *)
Lemma repathAttribs_spec (doc : TextDocument) (at_ : gmap string string) :
  repathAttribs L doc at_ =
    match at_ !! "src" with
    | Some src =>
        <["src" := spec_rewriteSrc L (path_dirname L (fileName doc))
                     (uri_with L doc "vscode-resource") src]> at_
    | None => at_
    end.
Proof.
  unfold repathAttribs. destruct (at_ !! "src") as [src|] eqn:Hsrc.
  - rewrite (keepImg_src _ _ Hsrc). unfold spec_rewriteSrc, newSrc.
    destruct (beginsWithCI "data:" (trimLeft src) || beginsWithCI "http" src);
      cbn [negb]; [|reflexivity].
    symmetry. by apply insert_id.
  - by destruct (keepImg at_) as [[]|].
Qed.

Lemma imgsOf_repathNode (doc : TextDocument) (n : node) :
  imgsOf (repathNode L doc n) = map (repathAttribs L doc) (imgsOf n).
Proof.
  induction n as [d|nm at_ ch IH] using node_ind'; [reflexivity|].
  cbn [imgsOf repathNode]. rewrite map_app. f_equal.
  - by destruct (String.eqb nm "img").
  - induction IH as [|c ch Hc _ IHch]; [reflexivity|].
    cbn [map flat_map]. rewrite map_app, Hc, IHch. reflexivity.
Qed.

Lemma selectImg_repath (doc : TextDocument) (dom : list node) :
  selectImg (map (repathNode L doc) dom)
  = map (repathAttribs L doc) (selectImg dom).
Proof.
  unfold selectImg. induction dom as [|n dom IH]; [reflexivity|].
  cbn [map flat_map]. rewrite map_app, imgsOf_repathNode, IH. reflexivity.
Qed.

Lemma eraseImgSrc_repathNode (doc : TextDocument) (n : node) :
  eraseImgSrc (repathNode L doc n) = eraseImgSrc n.
Proof.
  induction n as [d|nm at_ ch IH] using node_ind'; [reflexivity|].
  cbn [eraseImgSrc repathNode]. f_equal.
  - destruct (String.eqb nm "img"); [|reflexivity].
    rewrite repathAttribs_spec. destruct (at_ !! "src"); [|reflexivity].
    apply delete_insert_eq.
  - induction IH as [|c ch Hc _ IHch]; [reflexivity|].
    cbn [map]. by rewrite Hc, IHch.
Qed.

(** C2.  When every [img] of the rendered HTML has a [src], [repathImages]
    returns the serialised document in which the [src] of each [img] is
    left as it is if, leading white space trimmed, it begins with [data:]
    or if it begins with [http], in any letter case, and is otherwise
    the rewritten form of its join with the directory of the template;
    nothing else in the document changes. *)
Theorem repathImages_rewrites_relative_src
    (html : string) (templateDocument : TextDocument) :
  let dom := loadDocument L html in
  let templateDirectoryPath := path_dirname L (fileName templateDocument) in
  let rewriteFn := uri_with L templateDocument "vscode-resource" in
  Forall (fun at_ => is_Some (at_ !! "src")) (selectImg dom) ->
  exists dom',
    repathImages L html templateDocument = Ok (dom_html L dom')
    /\ selectImg dom' =
         map (fun at_ =>
                match at_ !! "src" with
                | Some src =>
                    <["src" := if beginsWithCI "data:" (trimLeft src)
                                  || beginsWithCI "http" src
                               then src
                               else rewriteFn
                                      (path_join L templateDirectoryPath src)]>
                      at_
                | None => at_
                end)
             (selectImg dom)
    /\ map eraseImgSrc dom' = map eraseImgSrc dom.
Proof.
  intros dom dir rewriteFn Hsrc.
  exists (map (repathNode L templateDocument) dom). split; [|split].
  - unfold repathImages. fold dom.
    destruct (filterImgs_ok _ Hsrc) as [kept ->]. reflexivity.
  - rewrite selectImg_repath. apply map_ext. intros at_.
    apply repathAttribs_spec.
  - rewrite map_map. apply map_ext. intros n. apply eraseImgSrc_repathNode.
Qed.

End RepathFacts.

(** The example of the specification: [./img/logo.png] below [/proj/tpl]. *)
Lemma repathImages_rewrites_relative_src_witness :
  Forall (fun at_ : gmap string string => is_Some (at_ !! "src"))
    (selectImg (loadDocument Demo.libs "<img src=./img/logo.png>"))
  /\ exists dom',
      repathImages Demo.libs "<img src=./img/logo.png>" Demo.page
      = Ok (dom_html Demo.libs dom')
      /\ selectImg dom' =
           map (fun at_ =>
                  match at_ !! "src" with
                  | Some src =>
                      <["src" := if beginsWithCI "data:" (trimLeft src)
                                    || beginsWithCI "http" src
                                 then src
                                 else uri_with Demo.libs Demo.page "vscode-resource"
                                        (path_join Demo.libs
                                           (path_dirname Demo.libs
                                              (fileName Demo.page)) src)]>
                        at_
                  | None => at_
                  end)
               (selectImg (loadDocument Demo.libs "<img src=./img/logo.png>"))
      /\ map eraseImgSrc dom'
         = map eraseImgSrc (loadDocument Demo.libs "<img src=./img/logo.png>").
Proof.
  assert (H : Forall (fun at_ : gmap string string => is_Some (at_ !! "src"))
                (selectImg (loadDocument Demo.libs "<img src=./img/logo.png>"))).
  { apply Forall_cons. split; [by eexists|apply Forall_nil; exact I]. }
  split; [exact H|].
  exact (repathImages_rewrites_relative_src Demo.libs
           "<img src=./img/logo.png>" Demo.page H).
Defined.

Example repathImages_relative :
  repathImages Demo.libs "<img src=./img/logo.png>" Demo.page
  = Ok "<img src=vscode-resource:/proj/tpl/img/logo.png>".
Proof. vm_compute. reflexivity. Qed.

Example keepImg_skips_data_and_http :
  keepImg {["src" := "data:image/png;base64,AAAA"]} = Ok false
  /\ keepImg {["src" := "  DATA:image/png;base64,AAAA"]} = Ok false
  /\ keepImg {["src" := "HTTP://x/y.png"]} = Ok false
  /\ keepImg {["src" := " http://x/y.png"]} = Ok true
  /\ keepImg {["src" := "./img/logo.png"]} = Ok true.
Proof. repeat split; vm_compute; reflexivity. Qed.

(** ** The sources and the wirings

    A theorem about [W : Wiring] speaks of the two files run with a subject
    supplied; [asTheyAre], or [subject P = NotExported], is the two files
    alone. *)

Lemma exported_supplied (P : Sources) (sub : ErrorSubscriber) :
  subject P = Exported sub ->
  P = supplied {| closedCallback := closed P; errorSubscriber := sub |}.
Proof. destruct P as [c s]. cbn. by intros ->. Qed.

Lemma sources_cases (P : Sources) :
  subject P = NotExported \/ exists W : Wiring, P = supplied W.
Proof.
  destruct (subject P) as [|sub] eqn:H; [by left|right].
  eexists. by apply exported_supplied.
Qed.

(** ** The render pipeline *)

Section PipelineFacts.
Context (L : Libs) (W : Wiring).

Lemma getContextData_loadContext (h : Host) (contextFile : string) (w : World) :
  getContextData L h contextFile w = (Ok (loadContext L h contextFile), w).
Proof.
  unfold getContextData, loadContext. unfold_monad.
  destruct (readFile h contextFile) as [contextJson|e]; [|reflexivity].
  destruct (JSON_parse L contextJson); reflexivity.
Qed.

(** C3.  [getContextData] never throws and leaves the state alone: it
    returns the parsed value when the file is read and parsed, and [{}]
    when reading fails or parsing fails. *)
Theorem getContextData_never_throws (h : Host) (contextFile : string) (w : World) :
  getContextData L h contextFile w =
    (Ok match readFile h contextFile with
        | Throw _ => emptyObject
        | Ok contextJson =>
            match JSON_parse L contextJson with
            | Throw _ => emptyObject
            | Ok value => value
            end
        end, w).
Proof. rewrite getContextData_loadContext. reflexivity. Qed.

(** [getCompiledHtml], all at once. *)
Lemma getCompiledHtml_pipeline (h : Host) (doc : TextDocument)
    (contextFile : string) (panel : nat) (w : World) :
  let o := pipeline L h doc contextFile (partials w) in
  getCompiledHtml L W h doc contextFile panel w
  = (Ok (htmlOf o), emit W (emitted L panel o) (log_render panel w)).
Proof.
  cbv zeta. unfold getCompiledHtml, pipeline.
  unfold bind at 1. cbn [modify].
  unfold bind at 1. rewrite getContextData_loadContext.
  unfold tryCatch at 1. unfold bind at 1. cbn [lift].
  destruct (hb_compile L (getText h doc)) as [compiled|e]; [|reflexivity].
  unfold bind at 1. unfold renderTemplate, tryCatch at 1.
  unfold bind at 1. cbn [gets]. unfold bind at 1. cbn [lift partials log_render].
  destruct (hb_template L compiled (partials w) (loadContext L h contextFile))
    as [rendered|e]; [|reflexivity].
  cbn. rewrite truthy_or_empty.
  destruct (repathImages L rendered doc); reflexivity.
Qed.

(** Without the subject each call of [showErrorMessage.next] throws, in the
    [try] blocks and in the [catch] blocks alike. *)
Lemma showErrorMessage_next_not_exported (P : Sources)
    (v : option (nat * string)) (w : World) :
  subject P = NotExported ->
  showErrorMessage_next P v w = (Throw noSubject, w).
Proof. intros H. unfold showErrorMessage_next. by rewrite H. Qed.

Lemma renderTemplate_not_exported (P : Sources) (template : Template L)
    (templateContext : Json) (panel : nat) (w : World) :
  subject P = NotExported ->
  renderTemplate L P template templateContext panel w = (Throw noSubject, w).
Proof.
  intros H. unfold renderTemplate, tryCatch, bind, gets, lift.
  destruct (hb_template L template (partials w) templateContext);
    by rewrite !showErrorMessage_next_not_exported.
Qed.

Lemma getCompiledHtml_not_exported (P : Sources) (h : Host)
    (doc : TextDocument) (contextFile : string) (panel : nat) (w : World) :
  subject P = NotExported ->
  getCompiledHtml L P h doc contextFile panel w
  = (Throw noSubject, log_render panel w).
Proof.
  intros H. unfold getCompiledHtml.
  unfold bind at 1. cbn [modify].
  unfold bind at 1. rewrite getContextData_loadContext.
  unfold tryCatch at 1. unfold bind at 1. cbn [lift].
  destruct (hb_compile L (getText h doc)) as [compiled|e].
  - unfold bind at 1. rewrite renderTemplate_not_exported by done.
    unfold bind. by rewrite showErrorMessage_next_not_exported.
  - unfold bind. by rewrite showErrorMessage_next_not_exported.
Qed.

(** C4.  With [src/extension.ts] as it is, [getCompiledHtml] throws at
    every input: whether compile fails, render fails or both succeed, the
    [TypeError] of [showErrorMessage.next] leaves the last [catch] and
    reaches the caller; no failure is returned as data, no HTML is
    returned, and the rewrite is never reached. *)
Theorem getCompiledHtml_rejects_as_the_sources_are (h : Host)
    (templateDocument : TextDocument) (contextFile : string) (panel : nat)
    (w : World) :
  getCompiledHtml L asTheyAre h templateDocument contextFile panel w
  = (Throw noSubject, log_render panel w).
Proof. by apply getCompiledHtml_not_exported. Qed.

(** C10.  With [src/extension.ts] as it is, an [img] without a [src] in
    the rendered HTML would make the filter of [repathImages] throw, but
    [getCompiledHtml] does not get that far and does not return [false]:
    it throws the [TypeError] of [showErrorMessage.next]. *)
Theorem img_without_src_rejects_as_the_sources_are (h : Host)
    (templateDocument : TextDocument) (contextFile : string) (panel : nat)
    (w : World) (compiled : Template L) (rendered : string) :
  hb_compile L (getText h templateDocument) = Ok compiled ->
  hb_template L compiled (partials w) (loadContext L h contextFile)
  = Ok rendered ->
  Exists (fun at_ => at_ !! "src" = None) (selectImg (loadDocument L rendered)) ->
  (exists e, repathImages L rendered templateDocument = Throw e)
  /\ fst (getCompiledHtml L asTheyAre h templateDocument contextFile panel w)
     = Throw noSubject
  /\ fst (getCompiledHtml L asTheyAre h templateDocument contextFile panel w)
     <> Ok None.
Proof.
  intros Hc Hr Himg.
  destruct (filterImgs_throws _ Himg) as [e He].
  split; [exists e; unfold repathImages; by rewrite He|].
  rewrite getCompiledHtml_not_exported by done. cbn [fst].
  split; [reflexivity|discriminate].
Qed.

End PipelineFacts.

Lemma img_without_src_rejects_as_the_sources_are_witness :
  hb_compile Demo.libs (getText (Demo.files "") Demo.imgDoc) = Ok "<img>"
  /\ hb_template Demo.libs "<img>" (partials initial)
       (loadContext Demo.libs (Demo.files "") "/proj/tpl/img.hbs.json")
     = Ok "<img>"
  /\ Exists (fun at_ : gmap string string => at_ !! "src" = None)
       (selectImg (loadDocument Demo.libs "<img>"))
  /\ (exists e, repathImages Demo.libs "<img>" Demo.imgDoc = Throw e)
  /\ fst (getCompiledHtml Demo.libs asTheyAre (Demo.files "") Demo.imgDoc
            "/proj/tpl/img.hbs.json" 0 initial) = Throw noSubject
  /\ fst (getCompiledHtml Demo.libs asTheyAre (Demo.files "") Demo.imgDoc
            "/proj/tpl/img.hbs.json" 0 initial) <> Ok None.
Proof.
  assert (Himg : Exists (fun at_ : gmap string string => at_ !! "src" = None)
                   (selectImg (loadDocument Demo.libs "<img>"))).
  { apply Exists_cons_hd. reflexivity. }
  split; [reflexivity|]. split; [reflexivity|]. split; [exact Himg|].
  exact (img_without_src_rejects_as_the_sources_are Demo.libs (Demo.files "")
           Demo.imgDoc "/proj/tpl/img.hbs.json" 0 initial "<img>" "<img>"
           eq_refl eq_refl Himg).
Defined.

(** ** Frame relations and the monad *)

Section Frames.

Global Instance keeps_refl : Reflexive keeps.
Proof. intros s. split; auto. Qed.

Global Instance keeps_trans : Transitive keeps.
Proof.
  intros s1 s2 s3 [] []. split; try congruence; auto. lia.
Qed.

Global Instance quiet_preorder : PreOrder quiet.
Proof.
  split.
  - intros w. split; reflexivity.
  - intros w1 w2 w3 [P1 N1 H1 R1 S1] [P2 N2 H2 R2 S2]. split; try congruence.
    + by etrans.
    + intros r. etrans; [apply H1|apply H2].
Qed.

Global Instance grows_preorder : PreOrder grows.
Proof.
  split.
  - intros w. split; auto. intros r s Hs. exists s. split; [done|reflexivity].
  - intros w1 w2 w3 [P1 N1 H1 R1 S1] [P2 N2 H2 R2 S2]. split.
    + intros r Hr. destruct (P2 r Hr) as [Hr2|Hr2]; [|right; lia].
      apply P1, Hr2.
    + lia.
    + intros r s Hs. destruct (H1 r s Hs) as (s2 & Hs2 & K1).
      destruct (H2 r s2 Hs2) as (s3 & Hs3 & K2).
      exists s3. split; [done|by etrans].
    + set_solver.
    + intros root Hroot. rewrite S2; [apply S1, Hroot|]. by apply R1.
Qed.

Global Instance static_preorder : PreOrder static.
Proof.
  split.
  - intros w. by split.
  - intros w1 w2 w3 [] []. split; congruence.
Qed.

Global Instance untouched_preorder (r : nat) : PreOrder (untouched r).
Proof.
  split.
  - intros w. by split.
  - intros w1 w2 w3 [] []. split; congruence.
Qed.

Lemma quiet_grows (w w' : World) : quiet w w' -> grows w w'.
Proof.
  intros [P N H R S]. split.
  - intros r Hr. left. by eapply elem_of_sublist.
  - lia.
  - intros r s Hs. specialize (H r). rewrite Hs in H. inversion H; eauto.
  - by rewrite R.
  - intros root _. unfold scansOf. by rewrite S.
Qed.

Context {A : Type} (R : World -> World -> Prop) `{!PreOrder R}.

Lemma respects_ret (a : A) : respects R (ret a).
Proof. intros w. reflexivity. Qed.

Lemma respects_lift (r : Result A) : respects R (lift r).
Proof. intros w. reflexivity. Qed.

Lemma respects_gets (f : World -> A) : respects R (gets f).
Proof. intros w. reflexivity. Qed.

Lemma respects_modify (f : World -> World) :
  (forall w, R w (f w)) -> respects R (modify f).
Proof. intros H w. apply H. Qed.

Lemma respects_bind {B} (m : M B) (k : B -> M A) :
  respects R m -> (forall b, respects R (k b)) -> respects R (bind m k).
Proof.
  intros Hm Hk w. unfold bind. specialize (Hm w).
  destruct (m w) as [[b|e] w']; cbn [snd] in *; [|done].
  etrans; [exact Hm|apply Hk].
Qed.

Lemma respects_tryCatch (m : M A) (handler : JsError -> M A) :
  respects R m -> (forall e, respects R (handler e)) ->
  respects R (tryCatch m handler).
Proof.
  intros Hm Hh w. unfold tryCatch. specialize (Hm w).
  destruct (m w) as [[a|e] w']; cbn [snd] in *; [done|].
  etrans; [exact Hm|apply Hh].
Qed.

End Frames.

Lemma respects_forOf {B} (R : World -> World -> Prop) `{!PreOrder R}
    (xs : list B) (body : B -> M unit) :
  (forall x, x ∈ xs -> respects R (body x)) -> respects R (forOf xs body).
Proof.
  induction xs as [|x xs IH]; intros H; cbn [forOf].
  - by apply respects_ret.
  - apply respects_bind; [tc_solve..| |].
    + apply H. by left.
    + intros _. apply IH. intros y Hy. apply H. by right.
Qed.

(** Breaks a monadic program down to the state changes it is made of. *)
Ltac respects_step :=
  lazymatch goal with
  | |- respects _ (bind _ _) => apply respects_bind; [tc_solve..| |intros ?]
  | |- respects _ (tryCatch _ _) => apply respects_tryCatch; [tc_solve..| |intros ?]
  | |- respects _ (ret _) => apply respects_ret; tc_solve
  | |- respects _ (lift _) => apply respects_lift; tc_solve
  | |- respects _ (gets _) => apply respects_gets; tc_solve
  | |- respects _ (modify _) => apply respects_modify; intros ?
  | |- respects _ (match ?x with _ => _ end) => destruct x
  end.

Ltac respects_all := repeat respects_step.

(** ** What rendering changes *)

Create HintDb frame discriminated.

Section RenderFrames.
Context (L : Libs) (W : Wiring).

Lemma keeps_with_html html s : keeps s (with_html html s).
Proof. split; auto. Qed.
Lemma keeps_with_panelDisposed s : keeps s (with_panelDisposed s).
Proof. split; auto. Qed.
Lemma keeps_with_watcherDisposed s : keeps s (with_watcherDisposed s).
Proof. split; auto. Qed.
Lemma keeps_with_disposeCall s : keeps s (with_disposeCall s).
Proof. split; cbn; auto. Qed.

Lemma quiet_alter (f : PreviewPanelScope -> PreviewPanelScope) (r : nat)
    (w : World) :
  (forall s, keeps s (f s)) -> quiet w (set_heap (alter f r) w).
Proof.
  intros Hf. split; try reflexivity. intros r'. cbn.
  rewrite lookup_alter. case_decide as Hr; [subst r'|reflexivity].
  destruct (heap w !! r); constructor. apply Hf.
Qed.

Lemma quiet_set_html r html w : quiet w (set_html r html w).
Proof. apply quiet_alter, keeps_with_html. Qed.

Lemma quiet_log_render r w : quiet w (log_render r w).
Proof. split; reflexivity. Qed.
Lemma quiet_log_error v w : quiet w (log_error v w).
Proof. split; reflexivity. Qed.
Lemma quiet_log_info m w : quiet w (log_info m w).
Proof. split; reflexivity. Qed.
Lemma quiet_set_partials f w : quiet w (set_partials f w).
Proof. split; reflexivity. Qed.

Lemma quiet_errorSubscription v w : quiet w (errorSubscription W v w).
Proof.
  unfold errorSubscription. read_wiring.
  destruct (errorSubscriber W), v as [[p m]|];
    try reflexivity. apply quiet_set_html.
Qed.

Lemma quiet_set_panels (f : list nat -> list nat) w :
  f (panels w) `sublist_of` panels w -> quiet w (set_panels f w).
Proof. intros H. split; try reflexivity. exact H. Qed.

Lemma static_set_heap f w : static w (set_heap f w).
Proof. split; reflexivity. Qed.
Lemma static_log_render r w : static w (log_render r w).
Proof. split; reflexivity. Qed.
Lemma static_log_error v w : static w (log_error v w).
Proof. split; reflexivity. Qed.
Lemma static_log_info m w : static w (log_info m w).
Proof. split; reflexivity. Qed.
Lemma static_errorSubscription v w : static w (errorSubscription W v w).
Proof.
  unfold errorSubscription. read_wiring.
  destruct (errorSubscriber W), v as [[p m]|];
    try reflexivity. apply static_set_heap.
Qed.

Lemma rendersOf_log_render r p w :
  rendersOf r (log_render p w)
  = rendersOf r w + (if decide (p = r) then 1 else 0).
Proof.
  unfold rendersOf. cbn. rewrite filter_app, length_app. f_equal.
  rewrite filter_cons, filter_nil. by repeat case_decide.
Qed.

Lemma untouched_alter f r p w : p ≠ r -> untouched r w (set_heap (alter f p) w).
Proof. intros H. split; [|reflexivity]. cbn. by rewrite lookup_alter_ne. Qed.
Lemma untouched_log_render r p w : p ≠ r -> untouched r w (log_render p w).
Proof.
  intros H. split; [reflexivity|]. rewrite rendersOf_log_render.
  case_decide; [done|lia].
Qed.
Lemma untouched_log_error r v w : untouched r w (log_error v w).
Proof. split; reflexivity. Qed.
Lemma untouched_log_info r m w : untouched r w (log_info m w).
Proof. split; reflexivity. Qed.
Lemma untouched_set_partials r f w : untouched r w (set_partials f w).
Proof. split; reflexivity. Qed.
Lemma untouched_errorSubscription r p m w :
  p ≠ r -> untouched r w (errorSubscription W (Some (p, m)) w).
Proof.
  intros H. unfold errorSubscription. read_wiring. destruct (errorSubscriber W);
    [reflexivity|]. by apply untouched_alter.
Qed.
Lemma untouched_errorSubscription_null r w :
  untouched r w (errorSubscription W None w).
Proof. unfold errorSubscription. read_wiring. by destruct (errorSubscriber W). Qed.

Hint Resolve quiet_set_html quiet_log_render quiet_log_error quiet_log_info
  quiet_set_partials quiet_errorSubscription static_set_heap
  static_log_render static_log_error static_log_info
  static_errorSubscription untouched_alter untouched_log_render
  untouched_log_error untouched_log_info untouched_set_partials
  untouched_errorSubscription untouched_errorSubscription_null : frame.

Ltac frame_prim :=
  try (etrans; [|first [apply quiet_errorSubscription
                       |apply static_errorSubscription
                       |apply untouched_errorSubscription_null
                       |apply untouched_errorSubscription; assumption]]);
  auto with frame; unfold set_html; auto with frame.

Lemma getCompiledHtml_quiet h doc cf panel :
  respects quiet (getCompiledHtml L W h doc cf panel).
Proof.
  unfold getCompiledHtml, renderTemplate, getContextData,
    showErrorMessage_next. respects_all; frame_prim.
Qed.

Lemma getCompiledHtml_static h doc cf panel :
  respects static (getCompiledHtml L W h doc cf panel).
Proof.
  unfold getCompiledHtml, renderTemplate, getContextData,
    showErrorMessage_next. respects_all; frame_prim.
Qed.

Lemma getCompiledHtml_untouched r h doc cf panel :
  panel ≠ r -> respects (untouched r) (getCompiledHtml L W h doc cf panel).
Proof.
  intros H. unfold getCompiledHtml, renderTemplate, getContextData,
    showErrorMessage_next. respects_all; frame_prim.
Qed.

Lemma showHtml_quiet r html : respects quiet (showHtml r html).
Proof. unfold showHtml. respects_all; frame_prim. Qed.
Lemma showHtml_static r html : respects static (showHtml r html).
Proof. unfold showHtml. respects_all; frame_prim. Qed.
Lemma showHtml_untouched r p html :
  p ≠ r -> respects (untouched r) (showHtml p html).
Proof. intros H. unfold showHtml. respects_all; frame_prim. Qed.

Lemma update_quiet h r : respects quiet (update L W h r).
Proof.
  unfold update. respects_all;
    auto using getCompiledHtml_quiet, showHtml_quiet.
Qed.
Lemma update_static h r : respects static (update L W h r).
Proof.
  unfold update. respects_all;
    auto using getCompiledHtml_static, showHtml_static.
Qed.
Lemma update_untouched r h p : p ≠ r -> respects (untouched r) (update L W h p).
Proof.
  intros H. unfold update. respects_all;
    auto using getCompiledHtml_untouched, showHtml_untouched.
Qed.

Lemma contextFileChanged_quiet h r : respects quiet (contextFileChanged L W h r).
Proof.
  unfold contextFileChanged. respects_all;
    auto using getCompiledHtml_quiet, showHtml_quiet.
Qed.

Lemma workspaceDocumentChanged_quiet h d r :
  respects quiet (workspaceDocumentChanged L W h d r).
Proof. unfold workspaceDocumentChanged. respects_all; apply update_quiet. Qed.

Lemma didChangeTextDocument_quiet h d :
  respects quiet (didChangeTextDocument L W h d).
Proof.
  unfold didChangeTextDocument. respects_all.
  apply respects_forOf; [tc_solve..|]. intros. apply workspaceDocumentChanged_quiet.
Qed.

Lemma partialCreated_quiet h e : respects quiet (partialCreated L W h e).
Proof.
  unfold partialCreated, registerPartials. respects_all; frame_prim.
  apply respects_forOf; [tc_solve..|]. intros. apply update_quiet.
Qed.

Lemma partialChanged_quiet h e : respects quiet (partialChanged L W h e).
Proof.
  unfold partialChanged, registerPartial. respects_all; frame_prim.
  apply respects_forOf; [tc_solve..|]. intros. apply update_quiet.
Qed.

End RenderFrames.

(** ** Arrays *)

Section ArrayFacts.

Lemma splice1_sublist (start : Z) (l : list nat) : splice1 start l `sublist_of` l.
Proof. apply sublist_delete. Qed.

Lemma splice1_nonneg (i : nat) (l : list nat) :
  i < length l -> splice1 (Z.of_nat i) l = delete i l.
Proof.
  intros Hi. unfold splice1.
  destruct (Z.ltb_spec (Z.of_nat i) 0) as [?|_]; [lia|].
  f_equal. lia.
Qed.

Lemma indexOf_not_in (x : nat) (l : list nat) : x ∉ l -> indexOf x l = (-1)%Z.
Proof.
  induction l as [|y l IH]; intros H; [reflexivity|].
  apply not_elem_of_cons in H as [Hxy Hl]. cbn [indexOf].
  destruct (Nat.eqb_spec x y) as [?|_]; [done|].
  by rewrite (IH Hl).
Qed.

Lemma filter_ne_not_in (x : nat) (l : list nat) :
  x ∉ l -> filter (fun y => y ≠ x) l = l.
Proof.
  induction l as [|y l IH]; intros H; [reflexivity|].
  apply not_elem_of_cons in H as [Hxy Hl].
  rewrite filter_cons_True by done. by rewrite (IH Hl).
Qed.

(** On an array without repetition, [l.splice(l.indexOf(x), 1)] takes [x]
    out. *)
Lemma splice1_indexOf (x : nat) (l : list nat) :
  NoDup l -> x ∈ l ->
  exists i, indexOf x l = Z.of_nat i /\ i < length l
            /\ splice1 (indexOf x l) l = filter (fun y => y ≠ x) l.
Proof.
  induction l as [|y l IH]; intros Hnd Hx; [by apply elem_of_nil in Hx|].
  apply NoDup_cons in Hnd as [Hy Hnd]. cbn [indexOf].
  destruct (Nat.eqb_spec x y) as [->|Hxy].
  - exists 0. split; [reflexivity|]. split; [cbn; lia|].
    rewrite (splice1_nonneg 0) by (cbn; lia). cbn [delete list_delete].
    rewrite filter_cons_False by (intros H; by apply H).
    by rewrite filter_ne_not_in.
  - apply elem_of_cons in Hx as [?|Hx]; [done|].
    destruct (IH Hnd Hx) as (i & Hi & Hlen & Hsp). rewrite Hi in *.
    destruct (Z.ltb_spec (Z.of_nat i) 0) as [?|_]; [lia|].
    exists (S i). split; [lia|]. split; [cbn; lia|].
    replace (Z.of_nat i + 1)%Z with (Z.of_nat (S i)) by lia.
    rewrite splice1_nonneg by (cbn; lia).
    rewrite splice1_nonneg in Hsp by done. cbn [delete list_delete].
    rewrite filter_cons_True by done. by rewrite <- Hsp.
Qed.

End ArrayFacts.

(** ** Closing a panel *)

Section DisposeFacts.
Context (W : Wiring).

Lemma remove_quiet r w : quiet w (remove r w).
Proof. apply quiet_set_panels, sublist_filter. Qed.

Lemma onPreviewPanelClosed_quiet r w : quiet w (onPreviewPanelClosed W r w).
Proof.
  unfold onPreviewPanelClosed. read_wiring. destruct (closedCallback W);
    [reflexivity|apply remove_quiet].
Qed.

Lemma onPreviewPanelClosed_heap r w :
  heap (onPreviewPanelClosed W r w) = heap w.
Proof. unfold onPreviewPanelClosed. read_wiring. by destruct (closedCallback W). Qed.

Lemma onPreviewPanelClosed_panels r w :
  panels (onPreviewPanelClosed W r w)
  = match closedCallback W with
    | NoCallback => panels w
    | RemoveFromPanels => filter (fun x => x ≠ r) (panels w)
    end.
Proof. unfold onPreviewPanelClosed. read_wiring. by destruct (closedCallback W). Qed.

Lemma onDidDispose_quiet r w : quiet w (onDidDispose W r w).
Proof.
  unfold onDidDispose. etrans; [|apply onPreviewPanelClosed_quiet].
  apply quiet_alter, keeps_with_watcherDisposed.
Qed.

Lemma surfaceClosed_quiet r w : quiet w (surfaceClosed W r w).
Proof.
  unfold surfaceClosed. destruct (heap w !! r) as [s|]; [|reflexivity].
  destruct (panelDisposed s); [reflexivity|].
  etrans; [|apply onDidDispose_quiet].
  apply quiet_alter, keeps_with_panelDisposed.
Qed.

Lemma panel_dispose_quiet r w : quiet w (panel_dispose W r w).
Proof.
  unfold panel_dispose. etrans; [|apply surfaceClosed_quiet].
  apply quiet_alter, keeps_with_disposeCall.
Qed.

Lemma forEachDispose_quiet k n w : quiet w (forEachDispose W k n w).
Proof.
  revert k w. induction n as [|n IH]; intros k w; cbn [forEachDispose];
    [reflexivity|].
  destruct (panels w !! k); [|apply IH].
  etrans; [apply panel_dispose_quiet|apply IH].
Qed.

(** The panel of a session that is closed for the first time: it is marked
    disposed, its watcher is released, and the callback has run on
    [panels]. *)
Lemma surfaceClosed_first r s w :
  heap w !! r = Some s -> panelDisposed s = false ->
  heap (surfaceClosed W r w) !! r
  = Some (with_watcherDisposed (with_panelDisposed s))
  /\ panels (surfaceClosed W r w)
     = match closedCallback W with
       | NoCallback => panels w
       | RemoveFromPanels => filter (fun x => x ≠ r) (panels w)
       end.
Proof.
  intros Hs Hd. unfold surfaceClosed. rewrite Hs, Hd. unfold onDidDispose.
  rewrite onPreviewPanelClosed_heap, onPreviewPanelClosed_panels. cbn.
  split; [|reflexivity].
  by rewrite !lookup_alter_eq, Hs.
Qed.

Lemma surfaceClosed_again r s w :
  heap w !! r = Some s -> panelDisposed s = true -> surfaceClosed W r w = w.
Proof. intros Hs Hd. unfold surfaceClosed. by rewrite Hs, Hd. Qed.

(** [panel.dispose()] on a session object: the call is counted and the
    panel is disposed afterwards. *)
Lemma panel_dispose_heap r s w :
  heap w !! r = Some s ->
  exists s', heap (panel_dispose W r w) !! r = Some s'
             /\ disposeCalls s' = S (disposeCalls s)
             /\ panelDisposed s' = true
             /\ (panelDisposed s = false -> watcherDisposed s' = true).
Proof.
  intros Hs. unfold panel_dispose.
  set (w1 := set_heap (alter with_disposeCall r) w).
  assert (H1 : heap w1 !! r = Some (with_disposeCall s)).
  { subst w1. cbn. by rewrite lookup_alter_eq, Hs. }
  destruct (panelDisposed s) eqn:Hd.
  - rewrite (surfaceClosed_again _ _ _ H1 Hd). eexists. split; [exact H1|].
    by cbn.
  - destruct (surfaceClosed_first _ _ _ H1 Hd) as [-> _].
    eexists. split; [reflexivity|]. by cbn.
Qed.

Lemma panel_dispose_panels r w :
  panels (panel_dispose W r w) = panels w
  \/ panels (panel_dispose W r w) = filter (fun x => x ≠ r) (panels w).
Proof.
  unfold panel_dispose. set (w1 := set_heap (alter with_disposeCall r) w).
  change (panels w) with (panels w1). unfold surfaceClosed.
  destruct (heap w1 !! r) as [s|]; [|by left].
  destruct (panelDisposed s); [by left|]. unfold onDidDispose.
  rewrite onPreviewPanelClosed_panels. destruct (closedCallback W); auto.
Qed.

End DisposeFacts.

(** ** The invariant *)

Section InvariantFacts.

Lemma quiet_pathOf w w' r : quiet w w' -> pathOf w' r = pathOf w r.
Proof.
  intros [_ _ H _ _]. unfold pathOf. specialize (H r).
  inversion H as [s s' [Hdoc _ _ _ _]|]; cbn; [|done]. by rewrite Hdoc.
Qed.

Lemma quiet_is_Some w w' r :
  quiet w w' -> is_Some (heap w' !! r) <-> is_Some (heap w !! r).
Proof.
  intros [_ _ H _ _]. specialize (H r).
  inversion H; split; intros [? ?]; by eauto.
Qed.

Lemma quiet_Inv w w' : Inv w -> quiet w w' -> Inv w'.
Proof.
  intros [IP IH IN] Hq. split.
  - intros r Hr. apply (quiet_is_Some _ _ _ Hq), IP.
    eapply elem_of_sublist; [exact Hr|apply Hq].
  - intros r Hr. rewrite (q_nextRef _ _ Hq).
    by apply IH, (quiet_is_Some _ _ _ Hq).
  - rewrite (list_fmap_ext (pathOf w') (pathOf w) (panels w'))
      by (intros; by apply quiet_pathOf).
    eapply sublist_NoDup; [exact IN|]. apply fmap_sublist, Hq.
Qed.

Lemma sameSessions_Inv w w' : Inv w -> sameSessions w w' -> Inv w'.
Proof.
  intros [IP IH IN] [HP HH HN].
  assert (Hpath : forall r, pathOf w' r = pathOf w r).
  { intros r. unfold pathOf. by rewrite HH. }
  split; rewrite ?HP, ?HH, ?HN; try done.
  by rewrite (list_fmap_ext (pathOf w') (pathOf w) (panels w))
    by (intros; apply Hpath).
Qed.

Lemma Inv_NoDup_panels w : Inv w -> NoDup (panels w).
Proof. intros [_ _ H]. by apply NoDup_fmap_1 in H. Qed.

Lemma Inv_initial : Inv initial.
Proof.
  split; cbn.
  - intros r Hr. by apply elem_of_nil in Hr.
  - intros r [s Hs]. by rewrite lookup_empty in Hs.
  - constructor.
Qed.

End InvariantFacts.

(** ** The preview command *)

Section CommandFacts.
Context (L : Libs) (W : Wiring).

Global Instance sameSessions_preorder : PreOrder sameSessions.
Proof.
  split.
  - intros w. by split.
  - intros w1 w2 w3 [] []. split; congruence.
Qed.

Lemma NoDup_fmap_eq {A B} (f : A -> B) (l : list A) (x y : A) :
  NoDup (f <$> l) -> x ∈ l -> y ∈ l -> f x = f y -> x = y.
Proof.
  induction l as [|a l IH]; intros Hnd Hx Hy Hf; [by apply elem_of_nil in Hx|].
  rewrite fmap_cons in Hnd. apply NoDup_cons in Hnd as [Ha Hnd].
  apply elem_of_cons in Hx as [->|Hx], Hy as [->|Hy]; auto.
  - exfalso. apply Ha. rewrite Hf. by apply list_elem_of_fmap_2.
  - exfalso. apply Ha. rewrite <- Hf. by apply list_elem_of_fmap_2.
Qed.

Lemma findPanel_Some path w r0 :
  findPanel path w = Some r0 -> r0 ∈ panels w /\ pathOf w r0 = Some path.
Proof.
  unfold findPanel. intros H. apply find_some in H as [Hin Hp].
  split; [by apply list_elem_of_In|]. unfold pathOf.
  destruct (heap w !! r0) as [s|]; [|done]. cbn.
  by apply String.eqb_eq in Hp as ->.
Qed.

Lemma findPanel_None path w :
  findPanel path w = None -> Some path ∉ pathOf w <$> panels w.
Proof.
  unfold findPanel. intros H Hin.
  apply list_elem_of_fmap in Hin as (r & Hr & Hin).
  apply list_elem_of_In in Hin. pose proof (find_none _ _ H r Hin) as Hn.
  cbn beta in Hn. unfold pathOf in Hr. destruct (heap w !! r) as [s|]; [|done].
  cbn in Hr. injection Hr as ->. by rewrite String.eqb_refl in Hn.
Qed.

Lemma splice_after_dispose (r0 : nat) (l l1 : list nat) :
  NoDup l -> r0 ∈ l ->
  l1 = l \/ l1 = filter (fun x => x ≠ r0) l ->
  splice1 (indexOf r0 l1) l1 `sublist_of` filter (fun x => x ≠ r0) l.
Proof.
  intros Hnd Hin [->| ->].
  - destruct (splice1_indexOf r0 l Hnd Hin) as (i & _ & _ & ->). done.
  - apply splice1_sublist.
Qed.

Lemma disposeExisting_quiet path : respects quiet (disposeExisting W path).
Proof.
  unfold disposeExisting, disposePreviewPanel. respects_all.
  - apply panel_dispose_quiet.
  - apply quiet_set_panels, splice1_sublist.
Qed.

Lemma disposeExisting_ok path w : fst (disposeExisting W path w) = Ok tt.
Proof.
  unfold disposeExisting, disposePreviewPanel. unfold_monad.
  by destruct (findPanel path w).
Qed.

(** After lines 30 to 35 no session of [panels] is bound to the path. *)
Lemma disposeExisting_clears path w :
  Inv w ->
  Some path ∉ pathOf (snd (disposeExisting W path w))
              <$> panels (snd (disposeExisting W path w)).
Proof.
  intros HI. pose proof (disposeExisting_quiet path w) as Hq.
  rewrite (list_fmap_ext _ (pathOf w) _)
    by (intros; by apply quiet_pathOf).
  unfold disposeExisting, disposePreviewPanel in *. unfold_monad.
  destruct (findPanel path w) as [r0|] eqn:Hf; cbn [snd] in *.
  - apply findPanel_Some in Hf as [Hin Hp]. cbn [panels set_panels].
    intros Hc. apply list_elem_of_fmap in Hc as (r & Hr & Hrin).
    pose proof (splice_after_dispose r0 (panels w) _
                  (Inv_NoDup_panels _ HI) Hin
                  (panel_dispose_panels W r0 w)) as Hsub.
    apply (elem_of_sublist _ _ _ Hrin) in Hsub.
    apply list_elem_of_filter in Hsub as [Hne Hrw]. apply Hne.
    apply (NoDup_fmap_eq (pathOf w) (panels w)); [apply HI|done..|congruence].
  - by apply findPanel_None.
Qed.


Lemma findAndRegisterPartials_eq h root w :
  findAndRegisterPartials L h root w =
    match collectPartials L h (findFiles h root) ∅ with
    | Ok known =>
        (Ok tt,
         set_registered (fun reg => {[root]} ∪ reg)
           (set_partials (fun reg => known ∪ reg) (log_scan root w)))
    | Throw e => (Throw e, log_scan root w)
    end.
Proof.
  unfold findAndRegisterPartials, registerPartials. unfold_monad.
  by destruct (collectPartials L h (findFiles h root) ∅).
Qed.

Lemma findAndRegisterPartials_sameSessions h root :
  respects sameSessions (findAndRegisterPartials L h root).
Proof.
  intros w. rewrite findAndRegisterPartials_eq.
  by destruct (collectPartials L h (findFiles h root) ∅).
Qed.

Lemma scansOf_log_scan root root' w :
  scansOf root' (log_scan root w)
  = scansOf root' w + (if decide (root = root') then 1 else 0).
Proof.
  unfold scansOf. cbn. rewrite filter_app, length_app. f_equal.
  rewrite filter_cons, filter_nil. by repeat case_decide.
Qed.

Lemma update_ok h r w : fst (update L W h r w) = Ok tt.
Proof.
  unfold update. unfold bind at 1. cbn [gets].
  destruct (heap w !! r) as [s|]; [|reflexivity].
  unfold bind. rewrite getCompiledHtml_pipeline. unfold showHtml.
  destruct (htmlOf _) as [html|]; [|reflexivity].
  by destruct (truthy html).
Qed.

Lemma newPreviewPanelScope_eq h doc w :
  exists w0,
    newPreviewPanelScope L h doc w
    = (Ok (nextRef w),
       set_nextRef (S (nextRef w))
         (set_heap (insert (nextRef w)
                      (fresh doc (fileName doc +:+ ".json"))) w0))
    /\ sameSessions w w0 /\ static w w0.
Proof.
  unfold newPreviewPanelScope, getContextFileName. unfold_monad.
  destruct (existsSync h _); eexists; (split; [reflexivity|]); by split.
Qed.

Lemma openPanel_post h doc w :
  let w' := snd (openPanel L W h doc w) in
  fst (openPanel L W h doc w) = Ok tt
  /\ panels w' = (panels w ++ [nextRef w])%list
  /\ nextRef w' = S (nextRef w)
  /\ (forall r, r ≠ nextRef w -> heap w' !! r = heap w !! r)
  /\ (exists s, heap w' !! nextRef w = Some s /\ document s = doc
                /\ contextFileName s = fileName doc +:+ ".json")
  /\ partials w' = partials w
  /\ partialsRegisteredByWorkspace w' = partialsRegisteredByWorkspace w
  /\ scans w' = scans w.
Proof.
  destruct (newPreviewPanelScope_eq h doc w) as (w0 & Heq & [P0 H0 N0] & S0).
  set (r := nextRef w) in *.
  set (wC := set_nextRef (S r) (set_heap (insert r _) w0)) in Heq.
  pose proof (update_ok h r wC) as Hok.
  assert (Hop : openPanel L W h doc w
                = (Ok tt, set_panels (fun ps => (ps ++ [r])%list)
                            (snd (update L W h r wC)))).
  { unfold openPanel, tryCatch. unfold bind at 1. rewrite Heq.
    unfold bind. destruct (update L W h r wC) as [[[]|e] wD]; [done|].
    by cbn in Hok. }
  cbv zeta. rewrite Hop. clear Hop Heq Hok.
  pose proof (update_static L W h r wC) as [SP SQ SN SR SS].
  pose proof (update_quiet L W h r wC) as Hq.
  assert (Hun : forall r', r' ≠ r ->
            heap (snd (update L W h r wC)) !! r' = heap wC !! r').
  { intros r' Hr'. apply (update_untouched L W r' h r); congruence. }
  set (wD := snd (update L W h r wC)) in *.
  change (panels wC) with (panels w0) in SP.
  change (nextRef wC) with (S r) in SN.
  change (partials wC) with (partials w0) in SQ.
  change (partialsRegisteredByWorkspace wC)
    with (partialsRegisteredByWorkspace w0) in SR.
  change (scans wC) with (scans w0) in SS.
  destruct S0 as [_ T1 _ T2 T3]. cbn.
  split; [done|]. split; [by rewrite SP, P0|]. split; [done|].
  split; [|split; [|repeat split; congruence]].
  - intros r' Hr'. rewrite (Hun r' Hr'). subst wC. cbn.
    rewrite lookup_insert_ne by done. by rewrite H0.
  - pose proof (q_heap _ _ Hq r) as Hk.
    assert (Hc : heap wC !! r = Some (fresh doc (fileName doc +:+ ".json"))).
    { subst wC. cbn. by rewrite lookup_insert_eq. }
    rewrite Hc in Hk. inversion Hk as [? s' [Hd Hcx _ _ _]|]. subst.
    exists s'. by rewrite Hd, Hcx.
Qed.

Lemma openPanel_Inv h doc w :
  Inv w -> Some (fsPath doc) ∉ pathOf w <$> panels w ->
  Inv (snd (openPanel L W h doc w)).
Proof.
  intros [IP IH IN] Hp.
  destruct (openPanel_post h doc w)
    as (_ & HP & HN & Hold & (s & Hs & Hd & _) & _).
  set (w' := snd (openPanel L W h doc w)) in *.
  assert (Hfresh : forall r, r ∈ panels w -> r ≠ nextRef w).
  { intros r Hr ->. specialize (IH _ (IP _ Hr)). lia. }
  assert (Hpath : pathOf w' <$> panels w = pathOf w <$> panels w).
  { apply list_fmap_ext. intros i r Hr. unfold pathOf.
    rewrite Hold; [done|]. apply Hfresh. by eapply list_elem_of_lookup_2. }
  split.
  - intros r Hr. rewrite HP in Hr. apply elem_of_app in Hr as [Hr|Hr].
    + rewrite Hold by by apply Hfresh. by apply IP.
    + apply list_elem_of_singleton in Hr as ->. by eexists.
  - intros r Hr. rewrite HN. destruct (decide (r = nextRef w)) as [->|Hne];
      [lia|]. rewrite Hold in Hr by done. specialize (IH _ Hr). lia.
  - rewrite HP, fmap_app, Hpath. apply NoDup_app. split; [done|].
    split; [|apply NoDup_singleton].
    intros x Hx Hx'. cbn in Hx'. apply list_elem_of_singleton in Hx'.
    subst x. unfold pathOf in Hx at 1. rewrite Hs in Hx. cbn in Hx.
    by rewrite Hd in Hx.
Qed.

Lemma openPanel_grows h doc w :
  Inv w -> grows w (snd (openPanel L W h doc w)).
Proof.
  intros [IP IH IN].
  destruct (openPanel_post h doc w)
    as (_ & HP & HN & Hold & _ & _ & HR & HS).
  split.
  - intros r Hr. rewrite HP in Hr. apply elem_of_app in Hr as [Hr|Hr];
      [by left|]. apply list_elem_of_singleton in Hr as ->. by right.
  - lia.
  - intros r s Hs. exists s. split; [|reflexivity].
    rewrite Hold; [done|]. intros ->.
    assert (nextRef w < nextRef w) by (apply IH; by eexists). lia.
  - by rewrite HR.
  - intros root _. unfold scansOf. by rewrite HS.
Qed.

Lemma findAndRegisterPartials_grows h root w :
  root ∉ partialsRegisteredByWorkspace w ->
  grows w (snd (findAndRegisterPartials L h root w)).
Proof.
  intros Hroot. rewrite findAndRegisterPartials_eq.
  assert (Hscan : forall root', root' ∈ partialsRegisteredByWorkspace w ->
            scansOf root' (log_scan root w) = scansOf root' w).
  { intros root' Hr'. rewrite scansOf_log_scan.
    case_decide; [by subst|lia]. }
  destruct (collectPartials L h (findFiles h root) ∅); cbn [snd]; split;
    try (by left); try done; try (intros r s Hs; exists s; by split).
  cbn. set_solver.
Qed.

Lemma previewHandlebars_eq h doc w :
  previewHandlebars L W h (Some doc) w
  = openInWorkspace L W h doc (snd (disposeExisting W (fsPath doc) w)).
Proof.
  unfold previewHandlebars, bind.
  pose proof (disposeExisting_ok (fsPath doc) w) as Hok.
  by destruct (disposeExisting W (fsPath doc) w) as [[[]|e] wA].
Qed.

Lemma openInWorkspace_eq h doc w :
  exists w1,
    sameSessions w w1
    /\ grows w w1
    /\ snd (openInWorkspace L W h doc w)
       = if opens L h doc w then snd (openPanel L W h doc w1) else w1.
Proof.
  unfold openInWorkspace, opens.
  destruct (getWorkspaceFolder h (fsPath doc)) as [root|];
    [|by exists w].
  unfold bind at 1. cbn [gets]. unfold partialsRegistered.
  case_bool_decide as Hreg; cbn [orb].
  - exists w. by unfold bind, ret.
  - unfold bind at 1.
    pose proof (findAndRegisterPartials_sameSessions h root w) as Hss.
    pose proof (findAndRegisterPartials_grows h root w Hreg) as Hg.
    rewrite findAndRegisterPartials_eq in *.
    destruct (collectPartials L h (findFiles h root) ∅) as [known|e];
      cbn [fst snd isOk] in *; eauto.
Qed.

(** The command keeps the invariant, and only ever adds to the state. *)
Lemma previewHandlebars_Inv h editor w :
  Inv w ->
  Inv (snd (previewHandlebars L W h editor w))
  /\ grows w (snd (previewHandlebars L W h editor w)).
Proof.
  intros HI. destruct editor as [doc|]; [|by split].
  rewrite previewHandlebars_eq.
  pose proof (disposeExisting_quiet (fsPath doc) w) as Hq.
  pose proof (disposeExisting_clears (fsPath doc) w HI) as Hclear.
  set (wA := snd (disposeExisting W (fsPath doc) w)) in *.
  pose proof (quiet_Inv _ _ HI Hq) as HIA.
  apply quiet_grows in Hq.
  destruct (openInWorkspace_eq h doc wA) as (w1 & Hss & Hg & ->).
  pose proof (sameSessions_Inv _ _ HIA Hss) as HI1.
  destruct (opens L h doc wA).
  - split.
    + apply openPanel_Inv; [done|]. destruct Hss as [HP HH _].
      rewrite HP, (list_fmap_ext (pathOf w1) (pathOf wA) (panels wA));
        [done|]. intros i r _. unfold pathOf. by rewrite HH.
    + etrans; [exact Hq|]. etrans; [exact Hg|by apply openPanel_grows].
  - split; [done|by etrans].
Qed.

End CommandFacts.

(** ** Every event *)

Section EventFacts.
Context (L : Libs) (W : Wiring).

Lemma handle_quiet ev w :
  match ev with PreviewCommand _ _ => True | _ => quiet w (handle L W ev w) end.
Proof.
  destruct ev; [done|..]; unfold handle, handler.
  - apply didChangeTextDocument_quiet.
  - apply contextFileChanged_quiet.
  - apply partialCreated_quiet.
  - apply partialChanged_quiet.
  - apply surfaceClosed_quiet.
  - apply forEachDispose_quiet.
Qed.

Lemma handle_Inv ev w : Inv w -> Inv (handle L W ev w).
Proof.
  intros HI. pose proof (handle_quiet ev w) as Hq.
  destruct ev; try (by eapply quiet_Inv).
  by apply previewHandlebars_Inv.
Qed.

Lemma handle_grows ev w : Inv w -> grows w (handle L W ev w).
Proof.
  intros HI. pose proof (handle_quiet ev w) as Hq.
  destruct ev; try (by apply quiet_grows).
  by apply previewHandlebars_Inv.
Qed.

Lemma run_Inv evs w : Inv w -> Inv (run L W evs w).
Proof.
  revert w. induction evs as [|ev evs IH]; intros w HI; [done|].
  apply IH, handle_Inv, HI.
Qed.

Lemma run_grows evs w : Inv w -> grows w (run L W evs w).
Proof.
  revert w. induction evs as [|ev evs IH]; intros w HI; [reflexivity|].
  etrans; [by apply handle_grows|]. apply IH, handle_Inv, HI.
Qed.

Lemma reachable_Inv w : reachable L W w -> Inv w.
Proof. intros [evs ->]. apply run_Inv, Inv_initial. Qed.


End EventFacts.

(** ** One session per document path *)

Section OneSessionPerPath.
Context (L : Libs) (W : Wiring).


Lemma sessionsFor_nil path w :
  Some path ∉ pathOf w <$> panels w -> sessionsFor path w = [].
Proof.
  unfold sessionsFor, pathOf. induction (panels w) as [|r l IH]; [done|].
  rewrite fmap_cons, not_elem_of_cons. intros [Hr Hl]. cbn [List.filter].
  rewrite (IH Hl). destruct (heap w !! r) as [s|]; [|done].
  destruct (String.eqb_spec (fsPath (document s)) path) as [<-|]; [|done].
  by destruct Hr.
Qed.



End OneSessionPerPath.



(** ** The bulk load of partials *)

Section BulkLoad.
Context (L : Libs) (W : Wiring).



End BulkLoad.


(** ** Closing a session *)

Section ClosedSessions.
Context (L : Libs) (W : Wiring).


End ClosedSessions.


(** Line 48 of [extension.ts] passes no callback: without one a closed
    session is disposed and stays in [panels] until the command runs again
    for its document. *)
Example closed_session_stays_without_callback :
  let w := run Demo.libs Demo.bare
             [PreviewCommand (Demo.files "<h1>Hi</h1>") (Some Demo.page);
              SurfaceClosed 0] initial in
  panels w = [0]
  /\ (panelDisposed <$> heap w !! 0) = Some true
  /\ (watcherDisposed <$> heap w !! 0) = Some true.
Proof. vm_compute. repeat split. Qed.

(** ** What [update] shows *)

Section UpdateFacts.
Context (L : Libs) (W : Wiring).

Lemma with_html_id s : with_html (webview_html s) s = s.
Proof. by destruct s. Qed.

Lemma alter_with_html r s html (m : gmap nat PreviewPanelScope) :
  m !! r = Some s -> alter (with_html html) r m !! r = Some (with_html html s).
Proof. intros H. by rewrite lookup_alter_eq, H. Qed.

(** [update] on a session object: it returns, it counts as one render, and
    the object shows the HTML or, with the error page subscribed, the
    error. *)
Lemma update_heap h r s w :
  heap w !! r = Some s ->
  let o := pipeline L h (document s) (contextFileName s) (partials w) in
  heap (snd (update L W h r w)) !! r = Some (afterUpdate L W s o)
  /\ renders (snd (update L W h r w)) = (renders w ++ [r])%list.
Proof.
  intros Hs o. unfold update. unfold bind at 1 3. cbn [gets]. rewrite Hs.
  unfold bind. rewrite !getCompiledHtml_pipeline. fold o.
  assert (H0 : heap (log_render r w) !! r = Some s) by done.
  assert (R0 : renders (log_render r w) = (renders w ++ [r])%list) by done.
  revert H0 R0. generalize (log_render r w). intros w0 H0 R0.
  unfold afterUpdate, emit, emitted, errorSubscription, showErrorPage,
    showHtml, set_html. read_wiring.
  destruct o as [e|e|e|html]; cbn [htmlOf fold_left];
    try (destruct (errorSubscriber W); cbn; rewrite ?lookup_alter_eq, ?H0;
         (split; [reflexivity|assumption])).
  destruct (truthy html), (errorSubscriber W); cbn;
    rewrite ?lookup_alter_eq, ?H0; (split; [reflexivity|assumption]).
Qed.

(** Without the subject [update] throws what [getCompiledHtml] throws,
    before [if (html)]. *)
Lemma update_not_exported (P : Sources) h r s w :
  subject P = NotExported ->
  heap w !! r = Some s ->
  update L P h r w = (Throw noSubject, log_render r w).
Proof.
  intros H Hs. unfold update. unfold bind at 1. cbn [gets]. rewrite Hs.
  unfold bind. by rewrite getCompiledHtml_not_exported.
Qed.








End UpdateFacts.


(** A session that showed the error page shows the template again once it
    renders. *)
Example error_page_then_render :
  let w := run Demo.libs Demo.wired
             [PreviewCommand Demo.noFolder None;
              PreviewCommand (Demo.files "") (Some Demo.page);
              PartialChanged (Demo.files "<h1>Hi</h1>") "/proj/tpl/header"]
             initial in
  (webview_html <$> heap w !! 0) = Some "<h1>Hi</h1>".
Proof. vm_compute. reflexivity. Qed.


(** ** Registering a partial again *)

Section Partials.
Context (L : Libs) (W : Wiring).



End Partials.


(** The scenario of the specification: [header] registered, rendered,
    registered again, rendered again by the same session. *)
Example partial_hot_update :
  let w := run Demo.libs Demo.bare
             [PreviewCommand (Demo.files "<h1>Hi</h1>") (Some Demo.page)]
             initial in
  let w2 := run Demo.libs Demo.bare
              [PartialChanged (Demo.files "<h1>Bye</h1>") "/proj/tpl/header"] w in
  (webview_html <$> heap w !! 0) = Some "<h1>Hi</h1>"
  /\ (webview_html <$> heap w2 !! 0) = Some "<h1>Bye</h1>"
  /\ panels w2 = panels w.
Proof. vm_compute. repeat split. Qed.

(** * Further properties of the code *)

(** ** More on [repathImages] *)

Section RepathMore.
Context (L : Libs).

Lemma filterImgs_isOk (sel : list (gmap string string)) :
  isOk (filterImgs sel) = forallb hasSrc sel.
Proof.
  induction sel as [|at_ sel IH]; [reflexivity|].
  cbn [filterImgs forallb]. unfold hasSrc at 1, keepImg.
  destruct (at_ !! "src") as [src|]; [|reflexivity].
  rewrite <- IH. by destruct (filterImgs sel).
Qed.

(** X1.  [repathImages] returns exactly when every [img] of the parsed HTML has
    a [src]; one [img] without makes it throw, whatever the others are. *)
Theorem repathImages_returns_iff_every_img_has_src
    (html : string) (templateDocument : TextDocument) :
  isOk (repathImages L html templateDocument)
  = forallb hasSrc (selectImg (loadDocument L html)).
Proof.
  unfold repathImages. rewrite <- filterImgs_isOk.
  by destruct (filterImgs (selectImg (loadDocument L html))).
Qed.

Lemma repathAttribs_skipped (doc : TextDocument) (at_ : gmap string string) :
  skipsSrc at_ = true -> repathAttribs L doc at_ = at_.
Proof.
  unfold skipsSrc. intros H. rewrite repathAttribs_spec.
  destruct (at_ !! "src") as [src|] eqn:Hsrc; [|done].
  unfold spec_rewriteSrc. rewrite H. by apply insert_id.
Qed.

Lemma repathNode_skipped (doc : TextDocument) (n : node) :
  forallb skipsSrc (imgsOf n) = true -> repathNode L doc n = n.
Proof.
  induction n as [d|nm at_ ch IH] using node_ind'; [reflexivity|].
  cbn [imgsOf repathNode]. rewrite forallb_app, andb_true_iff.
  intros [Hself Hch]. f_equal.
  - destruct (String.eqb nm "img"); [|reflexivity].
    cbn in Hself. rewrite andb_true_r in Hself.
    by apply repathAttribs_skipped.
  - induction IH as [|c ch Hc _ IHch]; [reflexivity|].
    cbn [flat_map] in Hch. rewrite forallb_app, andb_true_iff in Hch.
    destruct Hch as [H1 H2]. cbn [map]. by rewrite Hc, IHch.
Qed.

(** X2.  When the parsed HTML has no [img], or only ones whose [src] is a data
    URL or begins with [http], [repathImages] serialises the document as it
    was parsed. *)
Theorem repathImages_keeps_document_without_local_images
    (html : string) (templateDocument : TextDocument) :
  forallb skipsSrc (selectImg (loadDocument L html)) = true ->
  repathImages L html templateDocument = Ok (dom_html L (loadDocument L html)).
Proof.
  intros Hskip. unfold repathImages.
  assert (Hsrc : isOk (filterImgs (selectImg (loadDocument L html))) = true).
  { rewrite filterImgs_isOk. apply forallb_forall. intros at_ Hin.
    pose proof (proj1 (forallb_forall _ _) Hskip at_ Hin) as H.
    unfold skipsSrc, hasSrc in *. by destruct (at_ !! "src"). }
  destruct (filterImgs _); [|done]. do 2 f_equal.
  unfold selectImg in Hskip.
  induction (loadDocument L html) as [|n dom IH]; [reflexivity|].
  cbn [flat_map] in Hskip. rewrite forallb_app, andb_true_iff in Hskip.
  destruct Hskip as [H1 H2]. cbn [map].
  by rewrite repathNode_skipped, IH.
Qed.

Lemma whiteSpace_not_h (c : ascii) :
  isWhiteSpace c = true ->
  Ascii.eqb (toLowerChar "h") (toLowerChar c) = false.
Proof.
  destruct c as [[] [] [] [] [] [] [] []]; vm_compute; congruence.
Qed.

(** X3.  The two tests of the filter do not trim alike: a [src] that begins with
    white space is never taken for a remote one, so [ http://...] is
    rewritten like a relative path, and only the data URL test, made on the
    trimmed text, can keep it as it is. *)
Theorem keepImg_leading_white_space (at_ : gmap string string)
    (c : ascii) (rest : string) :
  at_ !! "src" = Some (String c rest) ->
  isWhiteSpace c = true ->
  keepImg at_ = Ok (negb (beginsWithCI "data:" (trimLeft rest))).
Proof.
  intros Hsrc Hc. rewrite (keepImg_src _ _ Hsrc). do 2 f_equal.
  cbn [trimLeft]. rewrite Hc.
  change (beginsWithCI "http" (String c rest))
    with (Ascii.eqb (toLowerChar "h") (toLowerChar c)
          && beginsWithCI "ttp" rest).
  rewrite (whiteSpace_not_h c Hc). cbn [andb]. apply orb_false_r.
Qed.

End RepathMore.

Lemma repathImages_keeps_document_without_local_images_witness :
  forallb skipsSrc (selectImg (loadDocument Demo.libs "<p>Hi</p>")) = true
  /\ repathImages Demo.libs "<p>Hi</p>" Demo.page
     = Ok (dom_html Demo.libs (loadDocument Demo.libs "<p>Hi</p>")).
Proof.
  split; [reflexivity|].
  exact (repathImages_keeps_document_without_local_images Demo.libs
           "<p>Hi</p>" Demo.page eq_refl).
Defined.

Lemma keepImg_leading_white_space_witness :
  ({["src" := " http://x/y.png"]} : gmap string string) !! "src"
  = Some (String " " "http://x/y.png")
  /\ isWhiteSpace " " = true
  /\ keepImg {["src" := " http://x/y.png"]}
     = Ok (negb (beginsWithCI "data:" (trimLeft "http://x/y.png"))).
Proof.
  split; [reflexivity|]. split; [reflexivity|].
  exact (keepImg_leading_white_space {["src" := " http://x/y.png"]}
           " "%char "http://x/y.png" eq_refl eq_refl).
Defined.

(** ** The bulk load, file by file *)

Section CollectPartials.
Context (L : Libs) (W : Wiring).

Lemma collectPartials_isOk h hbsFiles known :
  isOk (collectPartials L h hbsFiles known) = forallb (readable h) hbsFiles.
Proof.
  revert known. induction hbsFiles as [|hbs rest IH]; intros known;
    [reflexivity|].
  cbn [collectPartials forallb]. unfold readable at 1.
  destruct (getWorkspaceFolder h hbs) as [wf|]; [|apply IH].
  destruct (readFile h hbs) as [content|e]; [apply IH|reflexivity].
Qed.

Lemma collectPartials_lookup h hbsFiles known result name :
  collectPartials L h hbsFiles known = Ok result ->
  result !! name
  = match lastNamed L h hbsFiles name with
    | Some content => Some content
    | None => known !! name
    end.
Proof.
  revert known. induction hbsFiles as [|hbs rest IH]; intros known Hc.
  - cbn in Hc. by injection Hc as ->.
  - cbn [collectPartials lastNamed] in *.
    destruct (getWorkspaceFolder h hbs) as [wf|].
    + destruct (readFile h hbs) as [content|e]; [|done].
      rewrite (IH _ Hc). destruct (lastNamed L h rest name); [done|].
      destruct (String.eqb_spec (partialNameGenerator L hbs wf) name)
        as [->|Hne].
      * apply lookup_insert_eq.
      * by apply lookup_insert_ne.
    + rewrite (IH _ Hc). by destruct (lastNamed L h rest name).
Qed.

(** X4.  The loop of [findAndRegisterPartials] throws exactly when one of the
    files that has a workspace folder cannot be read; a file without a
    folder does not stop it. *)
Theorem collectPartials_fails_iff_unreadable_file (h : Host)
    (hbsFiles : list string) (knownPartials : gmap string string) :
  isOk (collectPartials L h hbsFiles knownPartials)
  = forallb (fun hbs =>
               match getWorkspaceFolder h hbs with
               | Some _ => isOk (readFile h hbs)
               | None => true
               end) hbsFiles.
Proof. apply collectPartials_isOk. Qed.

Lemma collectPartials_empty_lookup h hbsFiles known name :
  collectPartials L h hbsFiles ∅ = Ok known ->
  known !! name = lastNamed L h hbsFiles name.
Proof.
  intros Hc. rewrite (collectPartials_lookup _ _ _ _ name Hc).
  by destruct (lastNamed L h hbsFiles name).
Qed.

(** X5.  What the loop collects: under each name the content of the last file
    that is given the name, and nothing under a name no file is given. *)
Theorem collectPartials_last_file_wins (h : Host) (hbsFiles : list string)
    (knownPartials : gmap string string) (name : string) :
  collectPartials L h hbsFiles ∅ = Ok knownPartials ->
  knownPartials !! name = lastNamed L h hbsFiles name.
Proof. apply collectPartials_empty_lookup. Qed.

Lemma disposeExisting_static_registry path w :
  let wA := snd (disposeExisting W path w) in
  partials wA = partials w
  /\ partialsRegisteredByWorkspace wA = partialsRegisteredByWorkspace w
  /\ scans wA = scans w /\ nextRef wA = nextRef w
  /\ infoMessages wA = infoMessages w.
Proof.
  unfold disposeExisting, disposePreviewPanel. unfold_monad.
  destruct (findPanel path w) as [r0|]; [|done]. cbn.
  unfold panel_dispose, surfaceClosed. cbn.
  destruct (alter with_disposeCall r0 (heap w) !! r0) as [s|]; [|done].
  destruct (panelDisposed s); [done|].
  unfold onDidDispose, onPreviewPanelClosed. read_wiring.
  by destruct (closedCallback W).
Qed.

(** X6.  A bulk load that fails is a failure of the command, and it registers
    nothing: the partial registry and the registered folders are as before,
    no session is built, none is left for the document, and the folder has
    been scanned and will be scanned again by the next request. *)
Theorem failed_bulk_load_registers_nothing (h : Host) (doc : TextDocument)
    (workspaceRoot : string) (w : World) (e : JsError) :
  reachable L W w ->
  getWorkspaceFolder h (fsPath doc) = Some workspaceRoot ->
  workspaceRoot ∉ partialsRegisteredByWorkspace w ->
  collectPartials L h (findFiles h workspaceRoot) ∅ = Throw e ->
  let w' := snd (previewHandlebars L W h (Some doc) w) in
  fst (previewHandlebars L W h (Some doc) w) = Throw e
  /\ partials w' = partials w
  /\ partialsRegisteredByWorkspace w' = partialsRegisteredByWorkspace w
  /\ nextRef w' = nextRef w
  /\ sessionsFor (fsPath doc) w' = []
  /\ scansOf workspaceRoot w' = S (scansOf workspaceRoot w).
Proof.
  intros Hreach Hroot Hreg Hc. pose proof (reachable_Inv L W w Hreach) as HI.
  cbv zeta. rewrite previewHandlebars_eq.
  pose proof (disposeExisting_clears W (fsPath doc) w HI) as Hclear.
  destruct (disposeExisting_static_registry (fsPath doc) w)
    as (HP & HR & HS & HN & _).
  set (wA := snd (disposeExisting W (fsPath doc) w)) in *.
  assert (Heq : openInWorkspace L W h doc wA = (Throw e, log_scan workspaceRoot wA)).
  { unfold openInWorkspace. rewrite Hroot. unfold bind at 1. cbn [gets].
    unfold partialsRegistered. rewrite HR, bool_decide_eq_false_2 by done.
    unfold bind. by rewrite findAndRegisterPartials_eq, Hc. }
  rewrite Heq. cbn [fst snd]. repeat split; try done.
  - by apply sessionsFor_nil.
  - rewrite scansOf_log_scan, decide_True by done. unfold scansOf.
    rewrite HS. lia.
Qed.

Lemma openInWorkspace_isOk h doc w :
  isOk (fst (openInWorkspace L W h doc w)) = negb (loadFails L h doc w).
Proof.
  unfold openInWorkspace, loadFails.
  destruct (getWorkspaceFolder h (fsPath doc)) as [root|]; [|reflexivity].
  unfold bind at 1. cbn [gets]. unfold partialsRegistered.
  case_bool_decide as Hreg; cbn [negb andb].
  - unfold bind, ret. by destruct (openPanel_post L W h doc w) as [-> _].
  - unfold bind. rewrite findAndRegisterPartials_eq, negb_involutive.
    rewrite <- (collectPartials_isOk h _ ∅).
    destruct (collectPartials L h (findFiles h root) ∅) as [known|e];
      [|reflexivity].
    by destruct (openPanel_post L W h doc
                   (set_registered (fun reg => {[root]} ∪ reg)
                      (set_partials (fun reg => known ∪ reg)
                         (log_scan root w)))) as [-> _].
Qed.

(** X7.  The command rejects in one case only: the partials of the document's
    folder are not yet registered and one of its template files cannot be
    read.  Nothing else that goes wrong in it reaches the caller. *)
Theorem previewHandlebars_rejects_only_on_failed_load (h : Host)
    (doc : TextDocument) (w : World) :
  isOk (fst (previewHandlebars L W h (Some doc) w))
  = negb (loadFails L h doc w).
Proof.
  rewrite previewHandlebars_eq, openInWorkspace_isOk. unfold loadFails.
  by destruct (disposeExisting_static_registry (fsPath doc) w)
    as (_ & -> & _).
Qed.

(** X8.  A bulk load that succeeds assigns what it collected and keeps every
    other partial: afterwards a name stands for the last file of the folder
    that is given it, and for what it stood for before when no file is. *)
Theorem bulk_load_overrides_and_keeps (h : Host) (doc : TextDocument)
    (workspaceRoot : string) (w : World) (name : string) :
  getWorkspaceFolder h (fsPath doc) = Some workspaceRoot ->
  workspaceRoot ∉ partialsRegisteredByWorkspace w ->
  forallb (readable h) (findFiles h workspaceRoot) = true ->
  partials (snd (previewHandlebars L W h (Some doc) w)) !! name
  = match lastNamed L h (findFiles h workspaceRoot) name with
    | Some content => Some content
    | None => partials w !! name
    end.
Proof.
  intros Hroot Hreg Hread. rewrite previewHandlebars_eq.
  destruct (disposeExisting_static_registry (fsPath doc) w)
    as (HP & HR & _).
  set (wA := snd (disposeExisting W (fsPath doc) w)) in *.
  rewrite <- (collectPartials_isOk h _ ∅) in Hread.
  destruct (collectPartials L h (findFiles h workspaceRoot) ∅)
    as [known|e] eqn:Hc; [|done].
  set (wB := set_registered (fun reg => {[workspaceRoot]} ∪ reg)
               (set_partials (fun reg => known ∪ reg)
                  (log_scan workspaceRoot wA))).
  assert (Heq : snd (openInWorkspace L W h doc wA)
                = snd (openPanel L W h doc wB)).
  { unfold openInWorkspace. rewrite Hroot. unfold bind at 1. cbn [gets].
    unfold partialsRegistered. rewrite HR, bool_decide_eq_false_2 by done.
    unfold bind at 1. by rewrite findAndRegisterPartials_eq, Hc. }
  rewrite Heq.
  destruct (openPanel_post L W h doc wB) as (_ & _ & _ & _ & _ & -> & _).
  subst wB. cbn [partials set_registered set_partials log_scan].
  rewrite HP, <- (collectPartials_empty_lookup h _ known name Hc).
  rewrite lookup_union. destruct (known !! name), (partials w !! name); done.
Qed.

End CollectPartials.

Lemma collectPartials_last_file_wins_witness :
  collectPartials Demo.libs Demo.twoHeaders
    ["/proj/a/header"; "/proj/b/header"] ∅
  = Ok (<["header" := "B"]> (<["header" := "A"]> ∅))
  /\ (<["header" := "B"]> (<["header" := "A"]> ∅) : gmap string string)
       !! "header"
     = lastNamed Demo.libs Demo.twoHeaders
         ["/proj/a/header"; "/proj/b/header"] "header".
Proof.
  split; [reflexivity|].
  exact (collectPartials_last_file_wins Demo.libs Demo.twoHeaders
           ["/proj/a/header"; "/proj/b/header"]
           (<["header" := "B"]> (<["header" := "A"]> ∅)) "header" eq_refl).
Defined.

Lemma failed_bulk_load_registers_nothing_witness :
  reachable Demo.libs Demo.bare initial
  /\ getWorkspaceFolder Demo.broken (fsPath Demo.page) = Some "/proj"
  /\ ("/proj" ∉ partialsRegisteredByWorkspace initial)
  /\ collectPartials Demo.libs Demo.broken (findFiles Demo.broken "/proj") ∅
     = Throw (mkError "Error" "EACCES")
  /\ let w' := snd (previewHandlebars Demo.libs Demo.bare Demo.broken
                      (Some Demo.page) initial) in
     fst (previewHandlebars Demo.libs Demo.bare Demo.broken
            (Some Demo.page) initial) = Throw (mkError "Error" "EACCES")
     /\ partials w' = partials initial
     /\ partialsRegisteredByWorkspace w'
        = partialsRegisteredByWorkspace initial
     /\ nextRef w' = nextRef initial
     /\ sessionsFor (fsPath Demo.page) w' = []
     /\ scansOf "/proj" w' = S (scansOf "/proj" initial).
Proof.
  assert (Hr : reachable Demo.libs Demo.bare initial) by (by exists []).
  assert (Hn : "/proj" ∉ partialsRegisteredByWorkspace initial)
    by (cbn; set_solver).
  split; [exact Hr|]. split; [reflexivity|]. split; [exact Hn|].
  split; [reflexivity|].
  exact (failed_bulk_load_registers_nothing Demo.libs Demo.bare Demo.broken
           Demo.page "/proj" initial (mkError "Error" "EACCES")
           Hr eq_refl Hn eq_refl).
Defined.

Lemma bulk_load_overrides_and_keeps_witness :
  getWorkspaceFolder Demo.twoHeaders (fsPath Demo.page) = Some "/proj"
  /\ ("/proj" ∉ partialsRegisteredByWorkspace initial)
  /\ forallb (readable Demo.twoHeaders) (findFiles Demo.twoHeaders "/proj")
     = true
  /\ partials (snd (previewHandlebars Demo.libs Demo.bare Demo.twoHeaders
                      (Some Demo.page) initial)) !! "header"
     = match lastNamed Demo.libs Demo.twoHeaders
               (findFiles Demo.twoHeaders "/proj") "header" with
       | Some content => Some content
       | None => partials initial !! "header"
       end.
Proof.
  assert (Hn : "/proj" ∉ partialsRegisteredByWorkspace initial)
    by (cbn; set_solver).
  split; [reflexivity|]. split; [exact Hn|]. split; [reflexivity|].
  exact (bulk_load_overrides_and_keeps Demo.libs Demo.bare Demo.twoHeaders
           Demo.page "/proj" initial "header" eq_refl Hn eq_refl).
Defined.

(** ** Properties kept by every state change

    A relation on states that is reflexive and transitive and holds across
    each of the elementary state changes of the program holds across every
    handler. *)

Section Stable.
Context (L : Libs) (W : Wiring).
Context (R : World -> World -> Prop) `{!PreOrder R}.

Hypothesis R_log_render : forall r w, R w (log_render r w).
Hypothesis R_log_error : forall v w, R w (log_error v w).
Hypothesis R_log_info : forall m w, R w (log_info m w).
Hypothesis R_log_scan : forall root w, R w (log_scan root w).
Hypothesis R_set_html : forall r html w, R w (set_html r html w).
Hypothesis R_disposeCall :
  forall r w, R w (set_heap (alter with_disposeCall r) w).
Hypothesis R_surfaceClosed : forall r w, R w (surfaceClosed W r w).
Hypothesis R_set_panels : forall f w, R w (set_panels f w).
Hypothesis R_assign_partials :
  forall known w, R w (set_partials (fun reg => known ∪ reg) w).
Hypothesis R_assign_partial :
  forall name content w, R w (set_partials (insert name content) w).
Hypothesis R_register :
  forall root w, R w (set_registered (fun reg => {[root]} ∪ reg) w).
Hypothesis R_new :
  forall doc w,
    R w (set_nextRef (S (nextRef w))
           (set_heap (insert (nextRef w)
                        (fresh doc (fileName doc +:+ ".json"))) w)).

Lemma stable_errorSubscription v w : R w (errorSubscription W v w).
Proof.
  unfold errorSubscription, showErrorPage. read_wiring.
  destruct (errorSubscriber W), v as [[p m]|]; auto; reflexivity.
Qed.

Lemma stable_showErrorMessage_next v : respects R (showErrorMessage_next W v).
Proof.
  unfold showErrorMessage_next. apply respects_modify. intros w.
  etrans; [apply R_log_error|apply stable_errorSubscription].
Qed.

Lemma stable_getCompiledHtml h doc cf panel :
  respects R (getCompiledHtml L W h doc cf panel).
Proof.
  unfold getCompiledHtml, renderTemplate, getContextData.
  respects_all; auto using stable_showErrorMessage_next.
Qed.

Lemma stable_showHtml r html : respects R (showHtml r html).
Proof. unfold showHtml. respects_all; auto. Qed.

Lemma stable_update h r : respects R (update L W h r).
Proof.
  unfold update. respects_all;
    auto using stable_getCompiledHtml, stable_showHtml.
Qed.

Lemma stable_contextFileChanged h r : respects R (contextFileChanged L W h r).
Proof.
  unfold contextFileChanged. respects_all;
    auto using stable_getCompiledHtml, stable_showHtml.
Qed.

Lemma stable_didChangeTextDocument h d :
  respects R (didChangeTextDocument L W h d).
Proof.
  unfold didChangeTextDocument. respects_all.
  apply (respects_forOf R). intros r _. unfold workspaceDocumentChanged.
  respects_all. apply stable_update.
Qed.

Lemma stable_partialCreated h e : respects R (partialCreated L W h e).
Proof.
  unfold partialCreated, registerPartials. respects_all; auto.
  apply (respects_forOf R). intros. apply stable_update.
Qed.

Lemma stable_partialChanged h e : respects R (partialChanged L W h e).
Proof.
  unfold partialChanged, registerPartial. respects_all; auto.
  apply (respects_forOf R). intros. apply stable_update.
Qed.

Lemma stable_panel_dispose r w : R w (panel_dispose W r w).
Proof.
  unfold panel_dispose. etrans; [apply R_disposeCall|apply R_surfaceClosed].
Qed.

Lemma stable_forEachDispose k n w : R w (forEachDispose W k n w).
Proof.
  revert k w. induction n as [|n IH]; intros k w; cbn [forEachDispose];
    [reflexivity|].
  destruct (panels w !! k); [|apply IH].
  etrans; [apply stable_panel_dispose|apply IH].
Qed.

Lemma stable_disposeExisting path : respects R (disposeExisting W path).
Proof.
  unfold disposeExisting, disposePreviewPanel. respects_all; auto.
  apply stable_panel_dispose.
Qed.

Lemma stable_findAndRegisterPartials h root :
  respects R (findAndRegisterPartials L h root).
Proof.
  unfold findAndRegisterPartials, registerPartials. respects_all; auto.
Qed.

Lemma stable_newPreviewPanelScope h doc :
  respects R (newPreviewPanelScope L h doc).
Proof.
  intros w. unfold newPreviewPanelScope, getContextFileName. unfold_monad.
  destruct (existsSync h _); cbn [snd]; [apply R_new|].
  etrans; [apply R_log_info|]. apply (R_new doc (log_info _ w)).
Qed.

Lemma stable_openPanel h doc : respects R (openPanel L W h doc).
Proof.
  unfold openPanel. respects_all;
    auto using stable_newPreviewPanelScope, stable_update.
Qed.

Lemma stable_previewHandlebars h editor :
  respects R (previewHandlebars L W h editor).
Proof.
  unfold previewHandlebars, openInWorkspace. respects_all;
    auto using stable_disposeExisting, stable_findAndRegisterPartials,
      stable_openPanel.
Qed.

Lemma stable_handle ev w : R w (handle L W ev w).
Proof.
  unfold handle. destruct ev; cbn [handler].
  - apply stable_previewHandlebars.
  - apply stable_didChangeTextDocument.
  - apply stable_contextFileChanged.
  - apply stable_partialCreated.
  - apply stable_partialChanged.
  - apply R_surfaceClosed.
  - apply stable_forEachDispose.
Qed.

Lemma stable_run evs w : R w (run L W evs w).
Proof.
  revert w. induction evs as [|ev evs IH]; intros w; [reflexivity|].
  etrans; [apply stable_handle|apply IH].
Qed.

End Stable.

(** ** What no event undoes *)

Section Monotone.
Context (L : Libs) (W : Wiring).

Global Instance preserving_preorder (P : World -> Prop) : PreOrder (preserving P).
Proof. split; unfold preserving; [intros w; auto|intros w1 w2 w3; auto]. Qed.

Global Instance registryGrows_preorder : PreOrder registryGrows.
Proof.
  split; unfold registryGrows; [intros w; done|intros w1 w2 w3; set_solver].
Qed.

(** X9.  No event takes a name out of the partial registry: a partial stays
    registered when its file is gone, and through every later load. *)
Theorem partial_names_are_never_unregistered (evs : list Event) (w : World)
    (name : string) :
  is_Some (partials w !! name) ->
  is_Some (partials (run L W evs w) !! name).
Proof.
  rewrite <- !elem_of_dom. intros Hin.
  assert (H : registryGrows w (run L W evs w)).
  { apply stable_run; try tc_solve; intros; unfold registryGrows;
      try reflexivity.
    - unfold surfaceClosed. destruct (heap w0 !! r) as [s|]; [|done].
      destruct (panelDisposed s); [done|]. unfold onDidDispose.
      unfold onPreviewPanelClosed. read_wiring. by destruct (closedCallback W).
    - cbn. rewrite dom_union. set_solver.
    - cbn. rewrite dom_insert. set_solver. }
  by apply H.
Qed.

Lemma lookup_alter_Some {A} (f : A -> A) (m : gmap nat A) r r' x :
  alter f r m !! r' = Some x ->
  (r' ≠ r /\ m !! r' = Some x) \/ (r' = r /\ exists y, m !! r = Some y /\ x = f y).
Proof.
  destruct (decide (r = r')) as [->|Hne].
  - rewrite lookup_alter_eq. destruct (m !! r') as [y|] eqn:Hy; [|done].
    intros [= <-]. right. eauto.
  - rewrite lookup_alter_ne by done. auto.
Qed.

(** A property of every session object that the new object has and that
    each write to an object keeps holds in every state the events lead
    to. *)
Lemma objects_stable (Q : PreviewPanelScope -> Prop) (evs : list Event)
    (w : World) :
  (forall doc, Q (fresh doc (fileName doc +:+ ".json"))) ->
  (forall html s, Q s -> Q (with_html html s)) ->
  (forall s, Q s -> Q (with_disposeCall s)) ->
  (forall s, Q s -> Q (with_watcherDisposed (with_panelDisposed s))) ->
  (forall r s, heap w !! r = Some s -> Q s) ->
  forall r s, heap (run L W evs w) !! r = Some s -> Q s.
Proof.
  intros Qnew Qhtml Qcall Qclose.
  apply (stable_run L W
           (preserving (fun w => forall r s, heap w !! r = Some s -> Q s)));
    try tc_solve; unfold preserving; intros; try (cbn in *; by eauto).
  - unfold set_html in *. cbn in *.
    match goal with H : alter _ _ _ !! _ = Some _ |- _ =>
      apply lookup_alter_Some in H as [[_ H]|[_ (y & H & ->)]] end; eauto.
  - cbn in *.
    match goal with H : alter _ _ _ !! _ = Some _ |- _ =>
      apply lookup_alter_Some in H as [[_ H]|[_ (y & H & ->)]] end; eauto.
  - unfold surfaceClosed in *.
    destruct (heap w0 !! r) as [s1|] eqn:Hs1; [|by eauto].
    destruct (panelDisposed s1); [by eauto|].
    unfold onDidDispose in *. rewrite onPreviewPanelClosed_heap in *.
    cbn in *.
    match goal with Hx : alter _ _ _ !! _ = Some _ |- _ =>
      apply lookup_alter_Some in Hx as [[Hn Hl]|[-> (y & Hl & ->)]] end.
    + rewrite lookup_alter_ne in Hl by congruence. eauto.
    + rewrite lookup_alter_eq, Hs1 in Hl. injection Hl as <-. eauto.
  - cbn in *.
    match goal with Hx : <[_:=_]> _ !! _ = Some _ |- _ =>
      rewrite lookup_insert in Hx; case_decide; [injection Hx as <-|] end;
      eauto.
Qed.

(** X10.  In every reachable state a session whose panel is disposed has released
    its watcher: the listener of [onDidDispose] is the only place that
    disposes a panel's session, and it releases the watcher first. *)
Theorem disposed_panel_has_released_its_watcher (w : World) (r : nat)
    (s : PreviewPanelScope) :
  reachable L W w ->
  heap w !! r = Some s ->
  panelDisposed s = true ->
  watcherDisposed s = true.
Proof.
  intros [evs ->] Hs.
  refine (objects_stable
            (fun s => panelDisposed s = true -> watcherDisposed s = true)
            evs initial _ _ _ _ _ r s Hs); by cbn.
Qed.

(** X11.  In every reachable state the context file of a session is the file of
    its document with [.json] appended, and the session keeps its document
    and its context file through every later event. *)
Theorem session_is_bound_to_its_document (w : World) (r : nat)
    (s : PreviewPanelScope) (later : list Event) :
  reachable L W w ->
  heap w !! r = Some s ->
  contextFileName s = fileName (document s) +:+ ".json"
  /\ exists s', heap (run L W later w) !! r = Some s'
                /\ document s' = document s
                /\ contextFileName s' = contextFileName s.
Proof.
  intros Hreach Hs. split.
  - destruct Hreach as [evs ->].
    refine (objects_stable
              (fun s => contextFileName s = fileName (document s) +:+ ".json")
              evs initial _ _ _ _ _ r s Hs); by cbn.
  - pose proof (reachable_Inv L W w Hreach) as HI.
    destruct (run_grows L W later w HI) as [_ _ GH _ _].
    destruct (GH r s Hs) as (s' & Hs' & [Kd Kc _ _ _]). eauto.
Qed.

End Monotone.

Lemma partial_names_are_never_unregistered_witness :
  let w := run Demo.libs Demo.bare
             [PreviewCommand (Demo.files "<h1>Hi</h1>") (Some Demo.page)]
             initial in
  is_Some (partials w !! "header")
  /\ is_Some (partials
               (run Demo.libs Demo.bare
                  [PreviewCommand Demo.twoHeaders (Some Demo.plain); Deactivate]
                  w) !! "header").
Proof.
  cbv zeta.
  assert (H : is_Some (partials
                (run Demo.libs Demo.bare
                   [PreviewCommand (Demo.files "<h1>Hi</h1>") (Some Demo.page)]
                   initial) !! "header")) by (by eexists).
  split; [exact H|].
  exact (partial_names_are_never_unregistered Demo.libs Demo.bare
           [PreviewCommand Demo.twoHeaders (Some Demo.plain); Deactivate]
           _ "header" H).
Defined.

Lemma disposed_panel_has_released_its_watcher_witness :
  let w := run Demo.libs Demo.bare
             [PreviewCommand (Demo.files "x") (Some Demo.page);
              SurfaceClosed 0] initial in
  let s := with_watcherDisposed
             (with_panelDisposed
                (with_html "x" (fresh Demo.page "/proj/tpl/page.hbs.json"))) in
  reachable Demo.libs Demo.bare w
  /\ heap w !! 0 = Some s
  /\ panelDisposed s = true
  /\ watcherDisposed s = true.
Proof.
  cbv zeta.
  assert (Hr : reachable Demo.libs Demo.bare
                 (run Demo.libs Demo.bare
                    [PreviewCommand (Demo.files "x") (Some Demo.page);
                     SurfaceClosed 0] initial)) by (eexists; reflexivity).
  split; [exact Hr|]. split; [reflexivity|]. split; [reflexivity|].
  exact (disposed_panel_has_released_its_watcher Demo.libs Demo.bare
           (run Demo.libs Demo.bare
              [PreviewCommand (Demo.files "x") (Some Demo.page);
               SurfaceClosed 0] initial)
           0 _ Hr eq_refl eq_refl).
Defined.

Lemma session_is_bound_to_its_document_witness :
  let w := run Demo.libs Demo.bare
             [PreviewCommand (Demo.files "x") (Some Demo.page)] initial in
  let s := with_html "x" (fresh Demo.page "/proj/tpl/page.hbs.json") in
  let later := [DidChangeTextDocument (Demo.files "y") Demo.page;
                PreviewCommand (Demo.files "y") (Some Demo.plain)] in
  reachable Demo.libs Demo.bare w
  /\ heap w !! 0 = Some s
  /\ contextFileName s = fileName (document s) +:+ ".json"
  /\ exists s', heap (run Demo.libs Demo.bare later w) !! 0 = Some s'
                /\ document s' = document s
                /\ contextFileName s' = contextFileName s.
Proof.
  cbv zeta.
  assert (Hr : reachable Demo.libs Demo.bare
                 (run Demo.libs Demo.bare
                    [PreviewCommand (Demo.files "x") (Some Demo.page)] initial))
    by (eexists; reflexivity).
  split; [exact Hr|]. split; [reflexivity|].
  exact (session_is_bound_to_its_document Demo.libs Demo.bare
           (run Demo.libs Demo.bare
              [PreviewCommand (Demo.files "x") (Some Demo.page)] initial)
           0 (with_html "x" (fresh Demo.page "/proj/tpl/page.hbs.json"))
           [DidChangeTextDocument (Demo.files "y") Demo.page;
            PreviewCommand (Demo.files "y") (Some Demo.plain)]
           Hr eq_refl).
Defined.

(** ** The listeners *)

Section Listeners.
Context (L : Libs) (W : Wiring).




(** The create listener and the change listener of the partial watcher do
    the same: assigning an object of one entry is assigning the entry. *)
Lemma partialCreated_partialChanged h e w :
  partialCreated L W h e w = partialChanged L W h e w.
Proof.
  unfold partialCreated, partialChanged, registerPartials, registerPartial.
  destruct (getWorkspaceFolder h e) as [root|]; [|reflexivity].
  unfold bind at 1 4. cbn [lift].
  destruct (readFile h e) as [content|err]; [|reflexivity].
  unfold bind at 1 3. cbn [modify].
  replace (set_partials
             (fun reg => {[partialNameGenerator L e root := content]} ∪ reg) w)
    with (set_partials (insert (partialNameGenerator L e root) content) w);
    [reflexivity|].
  unfold set_partials. f_equal. apply insert_union_singleton_l.
Qed.

(** X12.  A partial file that is created is treated like one that is changed: the
    two listeners leave the same state and the same result. *)
Theorem created_partial_is_registered_like_changed (h : Host) (e : string)
    (w : World) :
  handler L W (PartialCreated h e) w = handler L W (PartialChanged h e) w.
Proof. apply partialCreated_partialChanged. Qed.

(** X14.  A partial file outside every workspace folder, or one that cannot be
    read, changes nothing: no partial is registered and no session is
    rendered. *)
Theorem unusable_partial_changes_nothing (h : Host) (e : string) (w : World) :
  readable h e = false \/ getWorkspaceFolder h e = None ->
  handle L W (PartialChanged h e) w = w
  /\ handle L W (PartialCreated h e) w = w.
Proof.
  intros H. unfold handle. cbn [handler].
  rewrite partialCreated_partialChanged.
  assert (Hw : snd (partialChanged L W h e w) = w); [|by split].
  unfold partialChanged, readable in *.
  destruct (getWorkspaceFolder h e) as [root|]; [|reflexivity].
  destruct H as [H|H]; [|done]. unfold bind at 1. cbn [lift].
  by destruct (readFile h e).
Qed.


End Listeners.

Lemma unusable_partial_changes_nothing_witness :
  let w := run Demo.libs Demo.bare
             [PreviewCommand (Demo.files "x") (Some Demo.page)] initial in
  (readable Demo.broken "/proj/tpl/footer" = false
   \/ getWorkspaceFolder Demo.broken "/proj/tpl/footer" = None)
  /\ handle Demo.libs Demo.bare
       (PartialChanged Demo.broken "/proj/tpl/footer") w = w
  /\ handle Demo.libs Demo.bare
       (PartialCreated Demo.broken "/proj/tpl/footer") w = w.
Proof.
  cbv zeta. split; [by left|].
  exact (unusable_partial_changes_nothing Demo.libs Demo.bare Demo.broken
           "/proj/tpl/footer" _ (or_introl eq_refl)).
Defined.


(** ** [update], the command and [deactivate], session by session *)

Section SessionBySession.
Context (L : Libs) (W : Wiring).

(** X16.  Whether it returns or throws, [update] writes to nothing but the
    object of its own session and the logs: every other session object,
    [panels], the partial registry and the registered folders are as
    before, with [src/extension.ts] as it is and with a subject supplied.
    When the pipeline yields the empty string, the object of its own
    session is as before too: the panel keeps what it showed. *)
Theorem update_writes_only_to_its_session (P : Sources) (h : Host)
    (r other : nat) (s : PreviewPanelScope) (w : World) :
  heap w !! r = Some s ->
  other ≠ r ->
  let w' := snd (update L P h r w) in
  heap w' !! other = heap w !! other
  /\ panels w' = panels w
  /\ partials w' = partials w
  /\ partialsRegisteredByWorkspace w' = partialsRegisteredByWorkspace w
  /\ (pipeline L h (document s) (contextFileName s) (partials w) = Rendered ""
      -> heap w' !! r = Some s).
Proof.
  intros Hs Hne w'. destruct (sources_cases P) as [HN|[W0 ->]].
  - subst w'. by rewrite (update_not_exported L P h r s w HN Hs).
  - pose proof (update_static L W0 h r w) as [SP SQ _ SR _].
    pose proof (update_untouched L W0 other h r (not_eq_sym Hne) w) as [Hh _].
    destruct (update_heap L W0 h r s w Hs) as [Hr _].
    repeat split; try done.
    intros Ho. subst w'. by rewrite Hr, Ho.
Qed.

Lemma panel_dispose_other r r' w :
  r' ≠ r -> heap (panel_dispose W r w) !! r' = heap w !! r'.
Proof.
  intros Hne. unfold panel_dispose, surfaceClosed. cbn.
  destruct (alter with_disposeCall r (heap w) !! r) as [s|];
    [destruct (panelDisposed s)|];
    unfold onDidDispose; rewrite ?onPreviewPanelClosed_heap; cbn;
    by rewrite ?lookup_alter_ne by done.
Qed.

Lemma disposeExisting_other path w r :
  findPanel path w ≠ Some r ->
  heap (snd (disposeExisting W path w)) !! r = heap w !! r.
Proof.
  intros Hne. unfold disposeExisting, disposePreviewPanel. unfold_monad.
  destruct (findPanel path w) as [r0|]; [|done]. cbn.
  apply panel_dispose_other. congruence.
Qed.

(** X17.  The command writes to no session object but the one it replaces: the
    object of every other session is after the command what it was
    before. *)
Theorem command_leaves_other_sessions_alone (h : Host) (doc : TextDocument)
    (w : World) (r : nat) (s : PreviewPanelScope) :
  reachable L W w ->
  heap w !! r = Some s ->
  findPanel (fsPath doc) w ≠ Some r ->
  heap (handle L W (PreviewCommand h (Some doc)) w) !! r = Some s.
Proof.
  intros Hreach Hs Hne. pose proof (reachable_Inv L W w Hreach) as HI.
  unfold handle, handler. rewrite previewHandlebars_eq.
  pose proof (disposeExisting_quiet W (fsPath doc) w) as Hq.
  pose proof (disposeExisting_other (fsPath doc) w r Hne) as HA.
  set (wA := snd (disposeExisting W (fsPath doc) w)) in *.
  destruct (openInWorkspace_eq L W h doc wA) as (w1 & [HP HH HN] & _ & ->).
  rewrite Hs in HA. destruct (opens L h doc wA); [|by rewrite HH].
  destruct (openPanel_post L W h doc w1) as (_ & _ & _ & Hold & _).
  rewrite Hold, HH; [done|].
  rewrite HN, (q_nextRef _ _ Hq). intros ->.
  assert (nextRef w < nextRef w) by (apply (inv_heap _ HI); by eexists). lia.
Qed.



Lemma forEachDispose_without_callback k n w :
  closedCallback W = NoCallback ->
  panels (forEachDispose W k n w) = panels w
  /\ forall i r, k <= i < k + n -> panels w !! i = Some r ->
                 is_Some (heap w !! r) ->
                 exists s', heap (forEachDispose W k n w) !! r = Some s'
                            /\ panelDisposed s' = true.
Proof.
  intros Hcb. revert k w. induction n as [|n IH]; intros k w;
    cbn [forEachDispose]; [split; [done|intros; lia]|].
  assert (HP : forall r, panels (panel_dispose W r w) = panels w).
  { intros r. unfold panel_dispose, surfaceClosed. cbn.
    destruct (alter with_disposeCall r (heap w) !! r) as [s|]; [|done].
    destruct (panelDisposed s); [done|]. unfold onDidDispose.
    by rewrite onPreviewPanelClosed_panels, Hcb. }
  destruct (panels w !! k) as [r0|] eqn:Hk.
  - destruct (IH (S k) (panel_dispose W r0 w)) as [IP IHd].
    rewrite HP in IP. split; [done|]. intros i r Hi Hr [s Hs].
    destruct (decide (i = k)) as [->|Hik].
    + assert (r = r0) as -> by congruence.
      destruct (panel_dispose_heap W r0 s w Hs) as (s1 & Hs1 & _ & Hd & _).
      pose proof (q_heap _ _ (forEachDispose_quiet W (S k) n
                                (panel_dispose W r0 w)) r0) as Hkeep.
      rewrite Hs1 in Hkeep. inversion Hkeep as [? s' [_ _ Kp _ _]|].
      exists s'. auto.
    + apply (IHd i r); [lia|by rewrite HP|].
      pose proof (q_heap _ _ (panel_dispose_quiet W r0 w) r) as Hkeep.
      rewrite Hs in Hkeep. inversion Hkeep. by eexists.
  - destruct (IH (S k) w) as [IP IHd]. split; [done|].
    intros i r Hi Hr Hs. apply (IHd i r); [|done..].
    destruct (decide (i = k)) as [->|]; [congruence|lia].
Qed.

(** X19.  With sessions built without a close callback, as line 48 builds them,
    [deactivate] disposes the panel of every session of [panels], and
    leaves [panels] as it is. *)
Theorem deactivate_disposes_every_panel (w : World) (r : nat) :
  closedCallback W = NoCallback ->
  reachable L W w ->
  r ∈ panels w ->
  panels (handle L W Deactivate w) = panels w
  /\ exists s', heap (handle L W Deactivate w) !! r = Some s'
                /\ panelDisposed s' = true.
Proof.
  intros Hcb Hreach Hin. pose proof (reachable_Inv L W w Hreach) as HI.
  unfold handle, handler, deactivate. cbn [modify snd].
  destruct (forEachDispose_without_callback 0 (length (panels w)) w Hcb)
    as [HP Hd].
  split; [done|]. pose proof (inv_panels _ HI r Hin) as Hsome.
  apply list_elem_of_lookup in Hin as [i Hi].
  apply (Hd i r); [|done..]. apply lookup_lt_Some in Hi. lia.
Qed.

Global Instance sameInfo_preorder : PreOrder sameInfo.
Proof.
  split; unfold sameInfo; [intros x; done|intros x y z; congruence].
Qed.

Lemma newPreviewPanelScope_explicit h doc w :
  newPreviewPanelScope L h doc w
  = (Ok (nextRef w),
     set_nextRef (S (nextRef w))
       (set_heap (insert (nextRef w) (fresh doc (fileName doc +:+ ".json")))
          (if existsSync h (fileName doc +:+ ".json") then w
           else log_info (tip L doc) w))).
Proof.
  unfold newPreviewPanelScope, getContextFileName, tip. unfold_monad.
  by destruct (existsSync h (fileName doc +:+ ".json")).
Qed.

Lemma openPanel_infoMessages h doc w :
  infoMessages (snd (openPanel L W h doc w))
  = (infoMessages w
     ++ if existsSync h (fileName doc +:+ ".json") then [] else [tip L doc])%list.
Proof.
  unfold openPanel, tryCatch. unfold bind at 1.
  rewrite newPreviewPanelScope_explicit.
  set (wC := set_nextRef _ _).
  assert (HC : infoMessages wC
               = (infoMessages w
                  ++ if existsSync h (fileName doc +:+ ".json")
                     then [] else [tip L doc])%list).
  { subst wC. cbn. destruct (existsSync h _); cbn; by rewrite ?app_nil_r. }
  rewrite <- HC. unfold bind.
  pose proof (update_ok L W h (nextRef w) wC) as Hok.
  assert (Hres : respects sameInfo (update L W h (nextRef w))).
  { by apply (stable_update L W sameInfo). }
  specialize (Hres wC).
  destruct (update L W h (nextRef w) wC) as [[[]|e] wD]; [|done].
  exact Hres.
Qed.

(** X20.  The command shows the tip that names the context file every time it
    opens a panel for a document whose context file does not exist, and at
    no other time. *)
Theorem tip_is_shown_at_every_open_without_context_file (h : Host)
    (doc : TextDocument) (w : World) :
  infoMessages (handle L W (PreviewCommand h (Some doc)) w)
  = (infoMessages w
     ++ if opens L h doc w && negb (existsSync h (fileName doc +:+ ".json"))
        then [tip L doc] else [])%list.
Proof.
  unfold handle, handler. rewrite previewHandlebars_eq.
  destruct (disposeExisting_static_registry W (fsPath doc) w)
    as (_ & HR & _ & _ & HI).
  set (wA := snd (disposeExisting W (fsPath doc) w)) in *.
  unfold opens, openInWorkspace, partialsRegistered. rewrite <- HR, <- HI.
  destruct (getWorkspaceFolder h (fsPath doc)) as [root|];
    [|by rewrite app_nil_r].
  unfold bind at 1. cbn [gets].
  case_bool_decide as Hreg; cbn [orb].
  - unfold bind, ret. rewrite openPanel_infoMessages.
    by destruct (existsSync h _).
  - unfold bind. rewrite findAndRegisterPartials_eq.
    destruct (collectPartials L h (findFiles h root) ∅) as [known|e];
      cbn [isOk andb snd]; [|by rewrite app_nil_r].
    rewrite openPanel_infoMessages. by destruct (existsSync h _).
Qed.

End SessionBySession.

Lemma update_writes_only_to_its_session_witness :
  let w := run Demo.libs asTheyAre
             [PreviewCommand (Demo.files "x") (Some Demo.page);
              PreviewCommand (Demo.files "x") (Some Demo.plain)] initial in
  let s := fresh Demo.page "/proj/tpl/page.hbs.json" in
  let h := Demo.files "" in
  heap w !! 0 = Some s
  /\ 1 ≠ 0
  /\ let w' := snd (update Demo.libs asTheyAre h 0 w) in
     heap w' !! 1 = heap w !! 1
     /\ panels w' = panels w
     /\ partials w' = partials w
     /\ partialsRegisteredByWorkspace w' = partialsRegisteredByWorkspace w
     /\ (pipeline Demo.libs h (document s) (contextFileName s) (partials w)
         = Rendered ""
         -> heap w' !! 0 = Some s).
Proof.
  cbv zeta. split; [reflexivity|]. split; [discriminate|].
  exact (update_writes_only_to_its_session Demo.libs asTheyAre (Demo.files "")
           0 1 (fresh Demo.page "/proj/tpl/page.hbs.json")
           (run Demo.libs asTheyAre
              [PreviewCommand (Demo.files "x") (Some Demo.page);
               PreviewCommand (Demo.files "x") (Some Demo.plain)] initial)
           eq_refl (fun H : 1 = 0 => O_S 0 (eq_sym H))).
Defined.

(** A partial that becomes empty: the template renders to the empty string
    and the panel keeps the HTML it showed. *)
Example empty_render_keeps_the_panel :
  let w := run Demo.libs Demo.bare
             [PreviewCommand (Demo.files "x") (Some Demo.page);
              PartialChanged (Demo.files "") "/proj/tpl/header"] initial in
  partials w !! "header" = Some "" /\ (webview_html <$> heap w !! 0) = Some "x".
Proof. vm_compute. by split. Qed.

Lemma command_leaves_other_sessions_alone_witness :
  let w := run Demo.libs Demo.bare
             [PreviewCommand (Demo.files "x") (Some Demo.page);
              PreviewCommand (Demo.files "x") (Some Demo.plain)] initial in
  let s := with_html "x" (fresh Demo.page "/proj/tpl/page.hbs.json") in
  reachable Demo.libs Demo.bare w
  /\ heap w !! 0 = Some s
  /\ findPanel (fsPath Demo.plain) w ≠ Some 0
  /\ heap (handle Demo.libs Demo.bare
             (PreviewCommand (Demo.files "y") (Some Demo.plain)) w) !! 0
     = Some s.
Proof.
  cbv zeta.
  assert (Hr : reachable Demo.libs Demo.bare
                 (run Demo.libs Demo.bare
                    [PreviewCommand (Demo.files "x") (Some Demo.page);
                     PreviewCommand (Demo.files "x") (Some Demo.plain)]
                    initial)) by (eexists; reflexivity).
  assert (Hne : findPanel (fsPath Demo.plain)
                  (run Demo.libs Demo.bare
                     [PreviewCommand (Demo.files "x") (Some Demo.page);
                      PreviewCommand (Demo.files "x") (Some Demo.plain)]
                     initial) ≠ Some 0) by (vm_compute; discriminate).
  split; [exact Hr|]. split; [reflexivity|]. split; [exact Hne|].
  exact (command_leaves_other_sessions_alone Demo.libs Demo.bare
           (Demo.files "y") Demo.plain
           (run Demo.libs Demo.bare
              [PreviewCommand (Demo.files "x") (Some Demo.page);
               PreviewCommand (Demo.files "x") (Some Demo.plain)] initial)
           0 (with_html "x" (fresh Demo.page "/proj/tpl/page.hbs.json"))
           Hr eq_refl Hne).
Defined.


Example command_keeps_the_order_of_the_others :
  panels (run Demo.libs Demo.bare
            [PreviewCommand (Demo.files "x") (Some Demo.page);
             PreviewCommand (Demo.files "x") (Some Demo.plain);
             PreviewCommand (Demo.files "x") (Some Demo.bad);
             PreviewCommand (Demo.files "y") (Some Demo.page)] initial)
  = [1; 2; 3].
Proof. vm_compute. reflexivity. Qed.

Lemma deactivate_disposes_every_panel_witness :
  let w := run Demo.libs Demo.bare
             [PreviewCommand (Demo.files "x") (Some Demo.page);
              PreviewCommand (Demo.files "x") (Some Demo.plain)] initial in
  closedCallback Demo.bare = NoCallback
  /\ reachable Demo.libs Demo.bare w
  /\ 1 ∈ panels w
  /\ panels (handle Demo.libs Demo.bare Deactivate w) = panels w
  /\ exists s', heap (handle Demo.libs Demo.bare Deactivate w) !! 1 = Some s'
                /\ panelDisposed s' = true.
Proof.
  cbv zeta.
  assert (Hr : reachable Demo.libs Demo.bare
                 (run Demo.libs Demo.bare
                    [PreviewCommand (Demo.files "x") (Some Demo.page);
                     PreviewCommand (Demo.files "x") (Some Demo.plain)]
                    initial)) by (eexists; reflexivity).
  assert (Hin : 1 ∈ panels (run Demo.libs Demo.bare
                    [PreviewCommand (Demo.files "x") (Some Demo.page);
                     PreviewCommand (Demo.files "x") (Some Demo.plain)]
                    initial)) by (vm_compute; right; by left).
  split; [reflexivity|]. split; [exact Hr|]. split; [exact Hin|].
  exact (deactivate_disposes_every_panel Demo.libs Demo.bare _ 1
           eq_refl Hr Hin).
Defined.

(** ** With the subject exported *)

Section WithSubject.
Context (L : Libs) (P : Sources) (sub : ErrorSubscriber).
Hypothesis exported : subject P = Exported sub.

(** X21.  With [showErrorMessage] exported by [./extension],
    [getCompiledHtml] always returns: its result is the HTML when compile,
    render and rewrite all succeed, in that order, and [false] as soon as
    one of them fails; the failure is sent to [showErrorMessage] as a
    message, and the stages after it are not run. *)
Theorem getCompiledHtml_returns_with_subject (h : Host)
    (templateDocument : TextDocument) (contextFile : string) (panel : nat)
    (w : World) :
  exists w',
    getCompiledHtml L P h templateDocument contextFile panel w
    = (Ok (htmlOf (pipeline L h templateDocument contextFile (partials w))), w')
    /\ showErrorMessage w'
       = (showErrorMessage w
          ++ emitted L panel
               (pipeline L h templateDocument contextFile (partials w)))%list.
Proof.
  rewrite (exported_supplied P sub exported).
  eexists. split; [apply getCompiledHtml_pipeline|].
  destruct (pipeline L h templateDocument contextFile (partials w));
    cbn [emitted emit fold_left];
    unfold errorSubscription, showErrorPage, set_html; read_wiring;
    destruct sub; cbn; rewrite <- ?app_assoc; reflexivity.
Qed.

(** X22.  With [showErrorMessage] exported by [./extension], when the
    rendered HTML has an [img] without a [src], the filter of
    [repathImages] throws, and [getCompiledHtml] returns [false]. *)
Theorem img_without_src_yields_false_with_subject (h : Host)
    (templateDocument : TextDocument) (contextFile : string) (panel : nat)
    (w : World) (compiled : Template L) (rendered : string) :
  hb_compile L (getText h templateDocument) = Ok compiled ->
  hb_template L compiled (partials w) (loadContext L h contextFile)
  = Ok rendered ->
  Exists (fun at_ => at_ !! "src" = None) (selectImg (loadDocument L rendered)) ->
  (exists e, repathImages L rendered templateDocument = Throw e)
  /\ fst (getCompiledHtml L P h templateDocument contextFile panel w) = Ok None.
Proof.
  intros Hc Hr Himg.
  destruct (filterImgs_throws _ Himg) as [e He].
  assert (Hre : repathImages L rendered templateDocument = Throw e).
  { unfold repathImages. by rewrite He. }
  split; [eauto|].
  rewrite (exported_supplied P sub exported).
  rewrite getCompiledHtml_pipeline. cbn [fst]. unfold pipeline.
  by rewrite Hc, Hr, Hre.
Qed.


End WithSubject.

Lemma getCompiledHtml_returns_with_subject_witness :
  subject Demo.wired = Exported ShowsErrorPage
  /\ exists w',
       getCompiledHtml Demo.libs Demo.wired (Demo.files "<h1>Hi</h1>")
         Demo.bad "/proj/tpl/bad.hbs.json" 0 initial
       = (Ok (htmlOf (pipeline Demo.libs (Demo.files "<h1>Hi</h1>") Demo.bad
                        "/proj/tpl/bad.hbs.json" (partials initial))), w')
       /\ showErrorMessage w'
          = (showErrorMessage initial
             ++ emitted Demo.libs 0
                  (pipeline Demo.libs (Demo.files "<h1>Hi</h1>") Demo.bad
                     "/proj/tpl/bad.hbs.json" (partials initial)))%list.
Proof.
  split; [reflexivity|].
  exact (getCompiledHtml_returns_with_subject Demo.libs Demo.wired
           ShowsErrorPage eq_refl (Demo.files "<h1>Hi</h1>") Demo.bad
           "/proj/tpl/bad.hbs.json" 0 initial).
Defined.

Lemma img_without_src_yields_false_with_subject_witness :
  subject Demo.wired = Exported ShowsErrorPage
  /\ hb_compile Demo.libs (getText (Demo.files "") Demo.imgDoc) = Ok "<img>"
  /\ hb_template Demo.libs "<img>" (partials initial)
       (loadContext Demo.libs (Demo.files "") "/proj/tpl/img.hbs.json")
     = Ok "<img>"
  /\ Exists (fun at_ : gmap string string => at_ !! "src" = None)
       (selectImg (loadDocument Demo.libs "<img>"))
  /\ (exists e, repathImages Demo.libs "<img>" Demo.imgDoc = Throw e)
  /\ fst (getCompiledHtml Demo.libs Demo.wired (Demo.files "") Demo.imgDoc
            "/proj/tpl/img.hbs.json" 0 initial) = Ok None.
Proof.
  assert (Himg : Exists (fun at_ : gmap string string => at_ !! "src" = None)
                   (selectImg (loadDocument Demo.libs "<img>"))).
  { apply Exists_cons_hd. reflexivity. }
  split; [reflexivity|].
  split; [reflexivity|]. split; [reflexivity|]. split; [exact Himg|].
  exact (img_without_src_yields_false_with_subject Demo.libs Demo.wired
           ShowsErrorPage eq_refl (Demo.files "") Demo.imgDoc
           "/proj/tpl/img.hbs.json" 0 initial "<img>" "<img>"
           eq_refl eq_refl Himg).
Defined.


(** ** Without the subject

    [src/extension.ts] as it is exports no [showErrorMessage]. *)

Section WithoutSubject.
Context (L : Libs) (P : Sources).
Hypothesis notExported : subject P = NotExported.

Lemma contextFileChanged_not_exported h r s w :
  heap w !! r = Some s ->
  watcherDisposed s = false ->
  contextFileChanged L P h r w = (Throw noSubject, log_render r w).
Proof.
  intros Hs Hw. unfold contextFileChanged. unfold bind at 1. cbn [gets].
  rewrite Hs, Hw. unfold bind. by rewrite getCompiledHtml_not_exported.
Qed.

(** X23.  With [src/extension.ts] as it is, [update] of a session rejects
    with the [TypeError] of [showErrorMessage.next] and shows nothing, and
    so does the listener of the session's context watcher: the state is as
    before but for the count of the call. *)
Theorem update_rejects_without_subject (h : Host) (r : nat)
    (s : PreviewPanelScope) (w : World) :
  heap w !! r = Some s ->
  update L P h r w = (Throw noSubject, log_render r w)
  /\ heap (snd (update L P h r w)) = heap w
  /\ (watcherDisposed s = false ->
      handler L P (ContextFileChanged h r) w
      = (Throw noSubject, log_render r w)).
Proof.
  intros Hs.
  rewrite (update_not_exported L P h r s w notExported Hs).
  split; [reflexivity|]. split; [reflexivity|].
  intros Hw. by apply contextFileChanged_not_exported with s.
Qed.

(** The [try] of lines 47 to 53: the session is constructed, [update]
    rejects, the [catch] swallows it and [panels.push] is not reached. *)
Lemma openPanel_not_exported h doc w :
  exists w', openPanel L P h doc w = (Ok tt, w') /\ panels w' = panels w.
Proof.
  unfold openPanel, tryCatch.
  destruct (newPreviewPanelScope_eq L h doc w) as (w0 & Hn & [Hp _ _] & _).
  unfold bind at 1. rewrite Hn.
  unfold bind at 1.
  rewrite (update_not_exported L P h (nextRef w)
             (fresh doc (fileName doc +:+ ".json")) _ notExported)
    by (cbn; apply lookup_insert_eq).
  eexists. split; [reflexivity|]. exact Hp.
Qed.

Lemma openInWorkspace_not_exported h doc w :
  panels (snd (openInWorkspace L P h doc w)) = panels w.
Proof.
  unfold openInWorkspace.
  destruct (getWorkspaceFolder h (fsPath doc)) as [root|]; [|done].
  unfold bind at 1. cbn [gets].
  destruct (partialsRegistered root w).
  - unfold bind at 1. cbn [ret].
    by destruct (openPanel_not_exported h doc w) as (w' & -> & Hp).
  - unfold bind at 1. rewrite findAndRegisterPartials_eq.
    destruct (collectPartials L h (findFiles h root) ∅) as [known|e];
      [|done].
    by destruct (openPanel_not_exported h doc
                   (set_registered (fun reg => {[root]} ∪ reg)
                      (set_partials (fun reg => known ∪ reg)
                         (log_scan root w)))) as (w' & -> & Hp).
Qed.

Lemma handle_no_session ev w :
  panels w = [] -> panels (handle L P ev w) = [].
Proof.
  intros Hnil. unfold handle.
  destruct ev as [h [doc|]|h d|h r|h e|h e|r|]; cbn [handler].
  - unfold previewHandlebars, disposeExisting, findPanel.
    unfold bind at 1. unfold bind at 1. cbn [gets]. rewrite Hnil. cbn [find ret].
    by rewrite openInWorkspace_not_exported.
  - done.
  - unfold didChangeTextDocument, bind. cbn [gets]. by rewrite Hnil.
  - unfold contextFileChanged. unfold bind at 1. cbn [gets].
    destruct (heap w !! r) as [s|]; [|done].
    destruct (watcherDisposed s); [done|].
    unfold bind. by rewrite getCompiledHtml_not_exported.
  - unfold partialCreated, registerPartials.
    destruct (getWorkspaceFolder h e) as [root|]; [|done].
    unfold_monad. destruct (readFile h e); cbn; by rewrite ?Hnil.
  - unfold partialChanged, registerPartial.
    destruct (getWorkspaceFolder h e) as [root|]; [|done].
    unfold_monad. destruct (readFile h e); cbn; by rewrite ?Hnil.
  - cbn [modify snd]. unfold surfaceClosed.
    destruct (heap w !! r) as [s|]; [|done].
    destruct (panelDisposed s); [done|].
    unfold onDidDispose, onPreviewPanelClosed, remove.
    destruct (closed P); cbn; by rewrite Hnil.
  - unfold deactivate. cbn [modify snd]. by rewrite Hnil.
Qed.

(** X24.  With [src/extension.ts] as it is, no session is ever kept:
    [update] rejects inside the [try] of the command, the [catch] swallows
    the failure and [panels.push(panel)] is not reached, so [panels] is
    empty in every reachable state and no document has a session in it. *)
Theorem no_session_is_kept_without_subject (w : World) (path : string) :
  reachable L P w -> panels w = [] /\ sessionsFor path w = [].
Proof.
  intros [evs ->].
  assert (H : panels (run L P evs initial) = []).
  { unfold run. generalize (eq_refl : panels initial = []).
    generalize initial. induction evs as [|ev evs IH]; intros w0 H0; [done|].
    cbn [fold_left]. apply IH. by apply handle_no_session. }
  split; [exact H|]. unfold sessionsFor. by rewrite H.
Qed.

End WithoutSubject.

Lemma update_rejects_without_subject_witness :
  let w := run Demo.libs asTheyAre
             [PreviewCommand (Demo.files "x") (Some Demo.page)] initial in
  let s := fresh Demo.page "/proj/tpl/page.hbs.json" in
  let h := Demo.files "x" in
  subject asTheyAre = NotExported
  /\ heap w !! 0 = Some s
  /\ update Demo.libs asTheyAre h 0 w = (Throw noSubject, log_render 0 w)
  /\ heap (snd (update Demo.libs asTheyAre h 0 w)) = heap w
  /\ (watcherDisposed s = false ->
      handler Demo.libs asTheyAre (ContextFileChanged h 0) w
      = (Throw noSubject, log_render 0 w)).
Proof.
  cbv zeta. split; [reflexivity|]. split; [reflexivity|].
  exact (update_rejects_without_subject Demo.libs asTheyAre eq_refl
           (Demo.files "x") 0 (fresh Demo.page "/proj/tpl/page.hbs.json")
           (run Demo.libs asTheyAre
              [PreviewCommand (Demo.files "x") (Some Demo.page)] initial)
           eq_refl).
Defined.

Lemma no_session_is_kept_without_subject_witness :
  let w := run Demo.libs asTheyAre
             [PreviewCommand (Demo.files "x") (Some Demo.page);
              PreviewCommand (Demo.files "x") (Some Demo.plain)] initial in
  subject asTheyAre = NotExported
  /\ reachable Demo.libs asTheyAre w
  /\ panels w = []
  /\ sessionsFor "/proj/tpl/page.hbs" w = [].
Proof.
  cbv zeta.
  assert (Hr : reachable Demo.libs asTheyAre
                 (run Demo.libs asTheyAre
                    [PreviewCommand (Demo.files "x") (Some Demo.page);
                     PreviewCommand (Demo.files "x") (Some Demo.plain)]
                    initial)) by (eexists; reflexivity).
  split; [reflexivity|]. split; [exact Hr|].
  exact (no_session_is_kept_without_subject Demo.libs asTheyAre eq_refl _
           "/proj/tpl/page.hbs" Hr).
Defined.
